(** * pdf2docx: text blocks

    A shallow embedding of [src/pdf2docx/text/TextBlock.py], the class that
    turns the lines of a PDF text block into a docx paragraph: alignment and
    spacing inferred from geometry, the discreteness test, the splitting of
    spans against style rectangles and the emission of runs and line breaks.

    Numbers.  Coordinates and spacings are Python floats in the source; they
    are embedded as exact rationals [Q], so the statements below concern the
    arithmetic and the branch structure of the code, not rounding.  Numeric
    results are compared with [==] ([Qeq]).  Python [int]s are [Z] and list
    lengths are [nat].  Where a property turns on the rounding of a float
    operation, as the tolerance tests of [set_alignment] do, the method is
    embedded a second time over IEEE 754 doubles (module [Double]).

    Exceptions.  A method that may raise returns a [result]; [Raise e] is the
    exception reaching the caller.

    Collaborators.  [Line], [Lines], [Block], [Span], the geometry helpers and
    the constants [DM] and [DR] live in modules outside this file; what
    [TextBlock] calls on them is gathered in the class [Env] and every
    definition is parametric in it. *)

From Stdlib Require Import QArith Qabs Qround Lqa ZArith Lia Bool.
From Stdlib Require Floats.
From stdpp Require Import base option list gmap strings.

Local Open Scope Q_scope.

(** ** Python runtime *)

Inductive exn : Set := ValueError | IndexError | ZeroDivisionError.

Inductive result (A : Type) : Type :=
| Ok (a : A)
| Raise (e : exn).
Arguments Ok {A} a.
Arguments Raise {A} e.

Definition bind {A B : Type} (m : result A) (k : A -> result B) : result B :=
  match m with
  | Ok a => k a
  | Raise e => Raise e
  end.

Notation "'do' x <- m ; k" := (bind m (fun x => k))
  (at level 10, x name, m at level 100, k at level 200).

Definition returns {A : Type} (m : result A) : Prop :=
  exists a, m = Ok a.

(** [a <= b] and [a < b] on floats. *)
Definition Qleb (a b : Q) : bool := Qle_bool a b.
Definition Qltb (a b : Q) : bool := negb (Qle_bool b a).

(** [xs[i]] for a non-negative index: [IndexError] out of range. *)
Definition getitem {A : Type} (xs : list A) (i : nat) : result A :=
  match xs !! i with
  | Some x => Ok x
  | None => Raise IndexError
  end.

(** [xs[-1]]. *)
Definition getlast {A : Type} (xs : list A) : result A :=
  match last xs with
  | Some x => Ok x
  | None => Raise IndexError
  end.

(** [x / n] with a float [x] and an int [n]. *)
Definition py_div (x : Q) (n : Z) : result Q :=
  if (n =? 0)%Z then Raise ZeroDivisionError else Ok (x / inject_Z n).

(** [max(xs)] keeps the first item and replaces it by any later item that
    is strictly greater; [min(xs)] likewise with strictly smaller.  Both
    raise [ValueError] on an empty sequence. *)
Fixpoint max_from (m : Q) (xs : list Q) : Q :=
  match xs with
  | [] => m
  | x :: rest => max_from (if Qltb m x then x else m) rest
  end.

Fixpoint min_from (m : Q) (xs : list Q) : Q :=
  match xs with
  | [] => m
  | x :: rest => min_from (if Qltb x m then x else m) rest
  end.

Definition py_max (xs : list Q) : result Q :=
  match xs with
  | [] => Raise ValueError
  | x :: rest => Ok (max_from x rest)
  end.

Definition py_min (xs : list Q) : result Q :=
  match xs with
  | [] => Raise ValueError
  | x :: rest => Ok (min_from x rest)
  end.

(** [range(n)] for an int [n]: empty when [n <= 0]. *)
Definition py_range (n : Z) : list nat := seq 0 (Z.to_nat n).

(** Leaving a [for] loop: falling through with the loop state, or a
    [return] from inside the body. *)
Inductive loop_exit (St R : Type) : Type :=
| Continue (s : St)
| Return (r : R).
Arguments Continue {St R} s.
Arguments Return {St R} r.

(** ** Data model *)

(** [fitz.Rect]: [(x0, y0, x1, y1)], indexable by [0..3]. *)
Record BBox : Set := mkBBox { x0 : Q; y0 : Q; x1 : Q; y1 : Q }.

(** [bbox[i]]; the source only uses the literal indices 0 to 3. *)
Definition item (b : BBox) (i : nat) : Q :=
  match i with
  | 0%nat => x0 b
  | 1%nat => y0 b
  | 2%nat => x1 b
  | _ => y1 b
  end.

(** [rect + DR]: component-wise sum of a rectangle and a 4-tuple. *)
Definition bbox_add (b d : BBox) : BBox :=
  mkBBox (x0 b + x0 d) (y0 b + y0 d) (x1 b + x1 d) (y1 b + y1 d).

Inductive TextDirection : Set := IGNORE | LEFT_RIGHT | BOTTOM_TOP.

#[global] Instance TextDirection_eq_dec : EqDecision TextDirection.
Proof. solve_decision. Defined.

Inductive TextAlignment : Set := LEFT | CENTER | RIGHT.

(** Modelled from the spec: the enumeration [RectType] is declared outside
    this file; a shape is either not yet attributed to a style
    ([UNDEFINED]) or carries the tag of the style it was attributed to. *)
Inductive RectType : Set := UNDEFINED | ATTRIBUTED (tag : nat).

(** A style rectangle of the page ([rect] in [parse_text_format]). *)
Record Shape : Set := mkShape { rect_bbox : BBox; rect_type : RectType }.

(** A span is a [TextSpan] or an [ImageSpan] ([isinstance] in the source);
    the style of a text span is the list of the style tags applied to it. *)
Inductive Span : Set :=
| TextSpan (b : BBox) (text : string) (style : list nat)
| ImageSpan (b : BBox).

Definition is_ImageSpan (s : Span) : bool :=
  match s with
  | ImageSpan _ => true
  | TextSpan _ _ _ => false
  end.

(** A [Line] object.  [line_id] is the identity of the Python object: the
    source compares lines with [==], which is identity for a class that
    does not define [__eq__]. *)
Record Line : Set := mkLine {
  line_id : nat;
  line_bbox : BBox;
  line_text_direction : TextDirection;
  spans : list Span
}.

Definition line_eq (a b : Line) : bool := Nat.eqb (line_id a) (line_id b).

(** [line.spans.reset(split_spans)]. *)
Definition reset_spans (line : Line) (split_spans : list Span) : Line :=
  mkLine (line_id line) (line_bbox line) (line_text_direction line) split_spans.

(** A [TextBlock] object.  [bbox] is the attribute the base class keeps, the
    union of the boxes of the lines; the methods below only read it. *)
Record TextBlock : Set := mkTextBlock {
  bbox : BBox;
  lines : list Line;
  alignment : TextAlignment;
  left_space : Q;
  right_space : Q;
  before_space : Q;
  after_space : Q;
  line_space : Q
}.

Definition set_alignment_left (self : TextBlock) (d : Q) : TextBlock :=
  mkTextBlock (bbox self) (lines self) LEFT d (right_space self)
              (before_space self) (after_space self) (line_space self).

Definition set_alignment_right (self : TextBlock) (d : Q) : TextBlock :=
  mkTextBlock (bbox self) (lines self) RIGHT (left_space self) d
              (before_space self) (after_space self) (line_space self).

Definition set_alignment_center (self : TextBlock) : TextBlock :=
  mkTextBlock (bbox self) (lines self) CENTER (left_space self) (right_space self)
              (before_space self) (after_space self) (line_space self).

Definition set_line_space (self : TextBlock) (v : Q) : TextBlock :=
  mkTextBlock (bbox self) (lines self) (alignment self) (left_space self)
              (right_space self) (before_space self) (after_space self) v.

Definition set_before_space (self : TextBlock) (v : Q) : TextBlock :=
  mkTextBlock (bbox self) (lines self) (alignment self) (left_space self)
              (right_space self) v (after_space self) (line_space self).

Definition set_lines (self : TextBlock) (ls : list Line) : TextBlock :=
  mkTextBlock (bbox self) ls (alignment self) (left_space self)
              (right_space self) (before_space self) (after_space self)
              (line_space self).

(** The raw dict of a block, as extracted by PyMuPDF: ['type'], ['bbox'],
    ['lines'] and the spacings added later.  The dicts of the lines are kept
    as records. *)
Record RawLine : Set := mkRawLine {
  raw_line_bbox : BBox;
  raw_line_dir : TextDirection;
  raw_line_spans : list Span
}.

Inductive RawValue : Set :=
| RawInt (n : Z)
| RawFloat (q : Q)
| RawRect (b : BBox)
| RawLines (ls : list RawLine).

(** The docx paragraph [p]: its format and the runs added so far.  A run is
    the rendering of a span or a piece of text ([p.add_run]). *)
Inductive Run : Set :=
| SpanRun (s : Span)
| TextRun (text : string).

Record ParagraphFormat : Set := mkParagraphFormat {
  space_before : Z;
  space_after : Z;
  line_spacing : Z;
  pf_alignment : TextAlignment;
  left_indent : option Z;
  right_indent : option Z
}.

Record Paragraph : Set := mkParagraph {
  paragraph_format : ParagraphFormat;
  runs : list Run
}.

(** ** Collaborators

    What [TextBlock] uses from the modules that are not in this file.  The
    theorems hold for every implementation of them; the hypotheses a
    theorem needs about one are stated with it. *)
Class Env : Type := {
  (** [constants.DM], the tolerance of the alignment tests. *)
  DM : Q;
  (** [constants.DR], the 4-tuple added to a line's bbox. *)
  DR : BBox;
  (** [Block.is_horizontal_text] and [Block.is_vertical_text]. *)
  is_horizontal_text : TextBlock -> bool;
  is_vertical_text : TextBlock -> bool;
  (** [Line.is_horizontal_text]. *)
  line_is_horizontal_text : Line -> bool;
  (** [line.in_same_row(other)]; [other] is [None] on the first turn of
      the loop of [parse_line_spacing]. *)
  in_same_row : Line -> option Line -> bool;
  (** [line.horizontally_align_with(other)]. *)
  horizontally_align_with : Line -> Line -> bool;
  (** [a.intersects(b)] on rectangles. *)
  intersects : BBox -> BBox -> bool;
  (** Truth value of the rectangle [a & b]. *)
  intersection : BBox -> BBox -> bool;
  (** [span.split(rect, horizontal)]: the sub-spans, and the rectangle,
      which the call may update. *)
  split : Span -> Shape -> bool -> list Span * Shape;
  (** [round(x, 1)]. *)
  round1 : Q -> Q;
  (** [docx.shared.Pt]: points to the length unit of python-docx. *)
  Pt : Q -> Z;
  (** [docx.reset_paragraph_format(p)]. *)
  reset_paragraph_format : Paragraph -> ParagraphFormat;
  (** [Block.__init__(raw)], the constructor of the base class. *)
  Block_init : gmap string RawValue -> TextBlock;
  (** [Lines.from_dicts]. *)
  from_dicts : list RawLine -> list Line
}.

Section TextBlock.

Context {E : Env}.

(** ** [TextBlock.__init__]

    The caller's dict is a mutable object shared with the constructor: the
    dict as the constructor leaves it is returned with the new block.  This
    is the dict as the lines of this method leave it; what the constructors
    of the lines, reached through [from_dicts] outside this file, do to the
    dicts nested under ['lines'] is not followed. *)
Definition TextBlock_init (raw : gmap string RawValue)
  : gmap string RawValue * TextBlock :=
  let raw :=
    match raw !! "bbox"%string with
    | Some _ => delete "bbox"%string raw
    | None => raw
    end in
  let self := Block_init raw in
  let raw_lines :=
    match raw !! "lines"%string with
    | Some (RawLines ls) => ls
    | _ => []
    end in
  (raw, set_lines self (from_dicts raw_lines)).

(** ** [TextBlock.text_direction] *)
Definition text_direction (self : TextBlock) : TextDirection :=
  let res := remove_dups (map line_text_direction (lines self)) in
  if bool_decide (IGNORE ∈ res) then IGNORE
  else
    match res with
    | [d] => d
    | _ => LEFT_RIGHT
    end.

(** ** [TextBlock.set_alignment] *)

(** [abs(max(X) - min(X)) <= DM], the test applied to the three lists of
    lines 86-88. *)
Definition within_DM (X : list Q) : result bool :=
  do hi <- py_max X;
  do lo <- py_min X;
  Ok (Qleb (Qabs (hi - lo)) DM).

(** [page] is the argument [bbox] of the source, the bbox of the page. *)
Definition set_alignment (self : TextBlock) (page : BBox) : result TextBlock :=
  let '(idx0, idx1, f) :=
    if is_horizontal_text self then (0%nat, 2%nat, 1) else (3%nat, 1%nat, -(1)) in
  let d_left := (item (bbox self) idx0 - item page idx0) * f in
  let d_right := (item page idx1 - item (bbox self) idx1) * f in
  let d_center := (d_left - d_right) / 2 in
  let X0 := map (fun line => item (line_bbox line) idx0) (lines self) in
  let X1 := map (fun line => item (line_bbox line) idx1) (lines self) in
  let X := map (fun p => (fst p + snd p) / 2) (zip X0 X1) in
  do left_aligned <- within_DM X0;
  do right_aligned <- within_DM X1;
  do center_aligned <- within_DM X;
  if left_aligned && negb right_aligned then
    Ok (set_alignment_left self d_left)
  else if right_aligned && negb left_aligned then
    Ok (set_alignment_right self d_right)
  else if center_aligned && negb left_aligned && negb right_aligned then
    Ok (set_alignment_center self)
  else if Qltb (Qabs d_center) DM then
    Ok (set_alignment_center self)
  else if Qleb (Qabs d_left) (Qabs d_right) then
    Ok (set_alignment_left self d_left)
  else
    Ok (set_alignment_right self d_right).

(** ** [TextBlock.contains_discrete_lines] *)

(** Modelled from the spec: [Lines.image_spans] is a property of the class
    [Lines], which is not in this file; it gathers the image spans of the
    lines. *)
Definition image_spans (ls : list Line) : list Span :=
  flat_map (fun line => filter (fun s => is_ImageSpan s = true) (spans line)) ls.

(** The loop of lines 182-193 over the indices [idxs], with the counter
    [cnt] as its state. *)
Fixpoint discrete_lines_loop (ls : list Line) (distance : Q)
    (idxs : list nat) (cnt : Z) : result (loop_exit Z bool) :=
  match idxs with
  | [] => Ok (Continue cnt)
  | i :: idxs' =>
      do line <- getitem ls i;
      do next_line <- getitem ls (i + 1);
      if horizontally_align_with line next_line then
        if negb (in_same_row line (Some next_line)) then Ok (Return true)
        else if Qltb distance (Qabs (x1 (line_bbox line) - x0 (line_bbox next_line)))
        then discrete_lines_loop ls distance idxs' (cnt + 1)%Z
        else discrete_lines_loop ls distance idxs' cnt
      else discrete_lines_loop ls distance idxs' cnt
  end.

Definition contains_discrete_lines (self : TextBlock) (distance : Q)
    (threshold : Z) : result bool :=
  let num := length (lines self) in
  if (num =? 1)%nat then Ok false
  else if negb (bool_decide (image_spans (lines self) = [])) then Ok true
  else if is_vertical_text self then Ok true
  else
    do r <- discrete_lines_loop (lines self) distance
              (py_range (Z.of_nat num - 1)) 1%Z;
    match r with
    | Return b => Ok b
    | Continue cnt => Ok (threshold <=? cnt)%Z
    end.

(** ** [TextBlock.parse_text_format] *)

Definition is_UNDEFINED (t : RectType) : bool :=
  match t with
  | UNDEFINED => true
  | ATTRIBUTED _ => false
  end.

(** Lines 225-234: the spans of one line against [rect]; [horizontal] is
    [line.is_horizontal_text]. *)
Fixpoint split_line_spans (horizontal : bool) (ss : list Span) (rect : Shape)
    (flag : bool) : list Span * Shape * bool :=
  match ss with
  | [] => ([], rect, flag)
  | span :: rest =>
      if is_ImageSpan span then
        let '(out, rect', flag') := split_line_spans horizontal rest rect flag in
        (span :: out, rect', flag')
      else
        let '(sub, rect1) := split span rect horizontal in
        let '(out, rect', flag') := split_line_spans horizontal rest rect1 true in
        (sub ++ out, rect', flag')
  end.

(** Lines 216-237: the lines of the block against [rect]; the [break] of
    line 221 leaves the remaining lines as they are. *)
Fixpoint split_lines (ls : list Line) (rect : Shape) (flag : bool)
    : list Line * Shape * bool :=
  match ls with
  | [] => ([], rect, flag)
  | line :: rest =>
      if negb (intersection (rect_bbox rect) (bbox_add (line_bbox line) DR)) then
        if Qltb (y1 (rect_bbox rect)) (y0 (line_bbox line)) then
          (line :: rest, rect, flag)
        else
          let '(out, rect', flag') := split_lines rest rect flag in
          (line :: out, rect', flag')
      else
        let '(split_spans, rect1, flag1) :=
          split_line_spans (line_is_horizontal_text line) (spans line) rect flag in
        let '(out, rect', flag') := split_lines rest rect1 flag1 in
        (reset_spans line split_spans :: out, rect', flag')
  end.

(** One turn of the loop of line 207. *)
Definition parse_text_format_rect (self : TextBlock) (rect : Shape) (flag : bool)
    : TextBlock * Shape * bool :=
  if negb (is_UNDEFINED (rect_type rect)) then (self, rect, flag)
  else if negb (intersects (bbox self) (rect_bbox rect)) then (self, rect, flag)
  else
    let '(ls, rect', flag') := split_lines (lines self) rect flag in
    (set_lines self ls, rect', flag').

Fixpoint parse_text_format_loop (self : TextBlock) (rects : list Shape)
    (flag : bool) : TextBlock * list Shape * bool :=
  match rects with
  | [] => (self, [], flag)
  | rect :: rest =>
      let '(self1, rect', flag1) := parse_text_format_rect self rect flag in
      let '(self', out, flag') := parse_text_format_loop self1 rest flag1 in
      (self', rect' :: out, flag')
  end.

(** The block and the shapes after the call, and the returned flag. *)
Definition parse_text_format (self : TextBlock) (rects : list Shape)
    : TextBlock * list Shape * bool :=
  parse_text_format_loop self rects false.

(** ** [TextBlock.parse_line_spacing] *)

(** The loop of lines 254-262: [ref_line] and [count] are the loop state. *)
Fixpoint count_rows (ref_line : option Line) (count : Z) (ls : list Line) : Z :=
  match ls with
  | [] => count
  | line :: rest =>
      let count := if negb (in_same_row line ref_line) then (count + 1)%Z else count in
      count_rows (Some line) count rest
  end.

(** Lines 252-278: the row count, and the block with [line_space] set and
    [before_space] adjusted. *)
Definition average_line_spacing (self : TextBlock) : result (Z * TextBlock) :=
  let idx := if is_horizontal_text self then 1%nat else 0%nat in
  let count := count_rows None 0%Z (lines self) in
  do line0 <- getitem (lines self) 0;
  let first_line_height :=
    item (line_bbox line0) (idx + 2) - item (line_bbox line0) idx in
  let block_height := item (bbox self) (idx + 2) - item (bbox self) idx in
  do line_space <-
    (if (1 <? count)%Z
     then py_div (block_height - first_line_height) (count - 1)
     else Ok block_height);
  let self := set_line_space self line_space in
  let self :=
    set_before_space self (before_space self + (first_line_height - line_space)) in
  Ok (count, self).

(** Lines 281-283. *)
Definition clamp_before_space (count : Z) (self : TextBlock) : result TextBlock :=
  if Qltb (before_space self) 0 then
    do d <- py_div (before_space self) count;
    let self := set_line_space self (line_space self + d) in
    Ok (set_before_space self 0)
  else Ok self.

Definition parse_line_spacing (self : TextBlock) : result TextBlock :=
  do r <- average_line_spacing self;
  clamp_before_space (fst r) (snd r).

(** ** [TextBlock.make_docx] *)

(** [max(a, 0.0)]: the second argument wins only when strictly greater. *)
Definition max_zero (a : Q) : Q := if Qltb a 0 then 0 else a.

Definition newline : string := String (Ascii.ascii_of_nat 10) EmptyString.

(** [enumerate(xs)]. *)
Definition enumerate {A : Type} (xs : list A) : list (nat * A) :=
  zip (seq 0 (length xs)) xs.

(** Modelled from the spec: [span.make_docx(p)] belongs to the span classes,
    which are not in this file; it emits the span as one styled run. *)
Definition span_make_docx (span : Span) (rs : list Run) : list Run :=
  rs ++ [SpanRun span].

(** Lines 338-345: is a hard line break added after [line], the [i]-th
    line of the block? *)
Definition line_break (self : TextBlock) (i : nat) (line : Line) : result bool :=
  do last_line <- getlast (lines self);
  if line_eq line last_line then Ok false
  else
    do next_line <- getitem (lines self) (i + 1);
    if in_same_row line (Some next_line) then Ok false else Ok true.

(** The loop of lines 331-347 over the enumerated lines. *)
Fixpoint make_docx_lines (self : TextBlock) (ils : list (nat * Line))
    (rs : list Run) : result (list Run) :=
  match ils with
  | [] => Ok rs
  | (i, line) :: rest =>
      let rs := foldl (fun acc span => span_make_docx span acc) rs (spans line) in
      do br <- line_break self i line;
      let rs := if br then rs ++ [TextRun newline] else rs in
      make_docx_lines self rest rs
  end.

Definition make_docx (self : TextBlock) (p : Paragraph) : result Paragraph :=
  let pf := reset_paragraph_format p in
  let before_spacing := max_zero (round1 (before_space self)) in
  let after_spacing := max_zero (round1 (after_space self)) in
  let pf :=
    match alignment self with
    | LEFT =>
        mkParagraphFormat (Pt before_spacing) (Pt after_spacing)
          (Pt (round1 (line_space self))) LEFT
          (Some (Pt (round1 (left_space self)))) (right_indent pf)
    | RIGHT =>
        mkParagraphFormat (Pt before_spacing) (Pt after_spacing)
          (Pt (round1 (line_space self))) RIGHT
          (left_indent pf) (Some (Pt (round1 (right_space self))))
    | CENTER =>
        mkParagraphFormat (Pt before_spacing) (Pt after_spacing)
          (Pt (round1 (line_space self))) CENTER
          (left_indent pf) (right_indent pf)
    end in
  do rs <- make_docx_lines self (enumerate (lines self)) (runs p);
  Ok (mkParagraph pf rs).

End TextBlock.

(** ** The properties, in the words of the specification *)

Section Specification.

Context {E : Env}.

(** The consecutive pairs [(lines[i], lines[i+1])]. *)
Definition consecutive_pairs (ls : list Line) : list (Line * Line) :=
  zip ls (tail ls).

(** Logical rows: the first line always counts, and so does every line that
    is not in the same row as its predecessor. *)
Definition row_count (ls : list Line) : Z :=
  match ls with
  | [] => 0
  | _ :: _ =>
      1 + Z.of_nat (length (filter
            (fun p => in_same_row (snd p) (Some (fst p)) = false)
            (consecutive_pairs ls)))
  end.

(** Extent of a box across the rows: its height for horizontal text, its
    width for vertical text. *)
Definition row_extent (self : TextBlock) (b : BBox) : Q :=
  if is_horizontal_text self then y1 b - y0 b else x1 b - x0 b.

(** A consecutive pair that is horizontally aligned but not in the same
    row. *)
Definition aligned_other_row (p : Line * Line) : bool :=
  horizontally_align_with (fst p) (snd p)
  && negb (in_same_row (fst p) (Some (snd p))).

(** A consecutive pair that is horizontally aligned, in the same row, and
    whose end-to-start gap exceeds [distance]. *)
Definition wide_gap (distance : Q) (p : Line * Line) : bool :=
  horizontally_align_with (fst p) (snd p)
  && in_same_row (fst p) (Some (snd p))
  && Qltb distance (Qabs (x1 (line_bbox (fst p)) - x0 (line_bbox (snd p)))).

Definition gap_count (distance : Q) (ls : list Line) : Z :=
  Z.of_nat (length (filter (fun p => wide_gap distance p = true)
                           (consecutive_pairs ls))).

(** Leading and trailing edge of a box along the text flow, and the margin
    between the block and the page on the leading side. *)
Definition leading_edge (self : TextBlock) (b : BBox) : Q :=
  if is_horizontal_text self then x0 b else y1 b.

Definition trailing_edge (self : TextBlock) (b : BBox) : Q :=
  if is_horizontal_text self then x1 b else y0 b.

Definition leading_margin (self : TextBlock) (page : BBox) : Q :=
  if is_horizontal_text self
  then x0 (bbox self) - x0 page
  else y1 page - y1 (bbox self).

(** A break follows the [i]-th line when it has a successor that is not in
    the same row. *)
Definition break_expected (ls : list Line) (i : nat) (line : Line) : bool :=
  match ls !! (i + 1)%nat with
  | Some next_line => negb (in_same_row line (Some next_line))
  | None => false
  end.

Definition runs_expected (ls : list Line) : list Run :=
  flat_map
    (fun il =>
       map SpanRun (spans (snd il))
       ++ (if break_expected ls (fst il) (snd il) then [TextRun newline] else []))
    (enumerate ls).

(** A shape that [parse_text_format] passes over: already attributed, or
    away from the block. *)
Definition passed_over (self : TextBlock) (rect : Shape) : Prop :=
  is_UNDEFINED (rect_type rect) = false
  \/ intersects (bbox self) (rect_bbox rect) = false.

(** A shape that can change the block: undecided and over its bbox. *)
Definition relevant (self : TextBlock) (rect : Shape) : bool :=
  is_UNDEFINED (rect_type rect) && intersects (bbox self) (rect_bbox rect).

End Specification.

(** ** A reference geometry and sample blocks

    One implementation of the collaborators, for horizontal text, and the
    blocks the examples below are evaluated on. *)
Module Demo.

(** Open intervals [(a0, a1)] and [(b0, b1)] overlap. *)
Definition overlap (a0 a1 b0 b1 : Q) : bool := Qltb a0 b1 && Qltb b0 a1.

Definition rect_overlap (a b : BBox) : bool :=
  overlap (x0 a) (x1 a) (x0 b) (x1 b) && overlap (y0 a) (y1 a) (y0 b) (y1 b).

(** The vertical centre of [a] lies within the vertical extent of [b]. *)
Definition centre_within (a b : BBox) : bool :=
  Qleb (y0 b) ((y0 a + y1 a) / 2) && Qleb ((y0 a + y1 a) / 2) (y1 b).

(** Same row: same direction and each centre line inside the other box;
    never with [None]. *)
Definition same_row (line : Line) (other : option Line) : bool :=
  match other with
  | None => false
  | Some o =>
      bool_decide (line_text_direction line = line_text_direction o)
      && centre_within (line_bbox line) (line_bbox o)
      && centre_within (line_bbox o) (line_bbox line)
  end.

(** Horizontally aligned: the vertical extents overlap. *)
Definition aligned (line other : Line) : bool :=
  overlap (y0 (line_bbox line)) (y1 (line_bbox line))
          (y0 (line_bbox other)) (y1 (line_bbox other)).

(** A text span crossed by the rectangle takes its style and the rectangle
    becomes attributed. *)
Definition split_span (span : Span) (rect : Shape) (horizontal : bool)
  : list Span * Shape :=
  match span with
  | TextSpan b text style =>
      if rect_overlap b (rect_bbox rect)
      then ([TextSpan b text (style ++ [0%nat])], mkShape (rect_bbox rect) (ATTRIBUTED 0))
      else ([span], rect)
  | ImageSpan _ => ([span], rect)
  end.

(** One decimal, halves up. *)
Definition round_1 (q : Q) : Q := inject_Z (Qfloor (q * 10 + 1 / 2)) / 10.

Definition empty_format : ParagraphFormat :=
  mkParagraphFormat 0 0 0 LEFT None None.

Definition line_of_raw (n : nat) (r : RawLine) : Line :=
  mkLine n (raw_line_bbox r) (raw_line_dir r) (raw_line_spans r).

Definition zero_bbox : BBox := mkBBox 0 0 0 0.

Definition env : Env := {|
  DM := 1;
  DR := mkBBox (-(1)) (-(1)) 1 1;
  is_horizontal_text := fun self => negb (bool_decide (text_direction self = BOTTOM_TOP));
  is_vertical_text := fun self => bool_decide (text_direction self = BOTTOM_TOP);
  line_is_horizontal_text :=
    fun line => negb (bool_decide (line_text_direction line = BOTTOM_TOP));
  in_same_row := same_row;
  horizontally_align_with := aligned;
  intersects := rect_overlap;
  intersection := rect_overlap;
  split := split_span;
  round1 := round_1;
  Pt := fun q => Qfloor (q * 12700);
  reset_paragraph_format := fun _ => empty_format;
  Block_init := fun _ => mkTextBlock zero_bbox [] LEFT 0 0 0 0 0;
  from_dicts := imap line_of_raw
|}.

(** A line of text with identity [n] and bbox [(a, b, c, d)]. *)
Definition text_line (n : nat) (a b c d : Q) : Line :=
  mkLine n (mkBBox a b c d) LEFT_RIGHT
         [TextSpan (mkBBox a b c d) "text" []].

Definition image_line (n : nat) (a b c d : Q) : Line :=
  mkLine n (mkBBox a b c d) LEFT_RIGHT [ImageSpan (mkBBox a b c d)].

(** A block with bbox [bb], the lines [ls] and spacing [bs] before. *)
Definition block (bb : BBox) (ls : list Line) (bs : Q) : TextBlock :=
  mkTextBlock bb ls LEFT 0 0 bs 0 0.

Definition page : BBox := mkBBox 0 0 600 800.

(** No lines at all, as [TextBlock()] builds it. *)
Definition empty_block : TextBlock := block zero_bbox [] 0.

(** Two fragments on one row, 30 units apart. *)
Definition two_fragments : TextBlock :=
  block (mkBBox 0 0 50 10)
        [text_line 0 0 0 10 10; text_line 1 40 0 50 10] 0.

(** Three fragments on one row, 30 units apart each. *)
Definition three_fragments : TextBlock :=
  block (mkBBox 0 0 90 10)
        [text_line 0 0 0 10 10; text_line 1 40 0 50 10; text_line 2 80 0 90 10] 0.

(** An ordinary paragraph: three left-aligned rows, ragged on the right. *)
Definition paragraph : TextBlock :=
  block (mkBBox 10 100 200 136)
        [text_line 0 10 100 200 112; text_line 1 10 112 180 124;
         text_line 2 10 124 150 136] 0.

(** A single line holding an inline image. *)
Definition single_image : TextBlock :=
  block (mkBBox 0 0 50 10) [image_line 0 0 0 50 10] 0.

(** An image line above a text line. *)
Definition image_and_text : TextBlock :=
  block (mkBBox 0 0 50 30) [image_line 0 0 0 50 10; text_line 1 0 20 50 30] 0.

(** A single line of height zero. *)
Definition flat_block : TextBlock :=
  block (mkBBox 0 10 50 10) [text_line 0 0 10 50 10] 0.

(** A single line of height 10 in a block that enters with a space before
    of -30. *)
Definition overlapping_block : TextBlock :=
  block (mkBBox 0 0 50 10) [text_line 0 0 0 50 10] (-(30)).

(** A horizontal and a vertical line side by side: two rows, in a block no
    higher than its first line. *)
Definition side_by_side : TextBlock :=
  block (mkBBox 0 0 70 10)
        [text_line 0 0 0 50 10;
         mkLine 1 (mkBBox 60 0 70 10) BOTTOM_TOP
                [TextSpan (mkBBox 60 0 70 10) "text" []]] 0.

(** Five rows of height 20 in a block of height 100. *)
Definition five_rows : TextBlock :=
  block (mkBBox 0 0 50 100)
        [text_line 0 0 0 50 20; text_line 1 0 20 50 40; text_line 2 0 40 50 60;
         text_line 3 0 60 50 80; text_line 4 0 80 50 100] 0.

(** Two rows, the first of height 10, in a block of height 24. *)
Definition loose_rows : TextBlock :=
  block (mkBBox 0 0 50 24) [text_line 0 0 0 50 10; text_line 1 0 14 50 24] 0.

(** [loose_rows] after line 278: the average spacing is 14 and the space
    before has dropped to -4. *)
Definition loose_rows_adjusted : TextBlock :=
  mkTextBlock (mkBBox 0 0 50 24) [text_line 0 0 0 50 10; text_line 1 0 14 50 24]
              LEFT 0 0 (-(4)) 0 14.

(** A rectangle already attributed to a style, inside [paragraph], and an
    undecided one far away from it. *)
Definition decided_rect : Shape :=
  mkShape (mkBBox 10 100 200 112) (ATTRIBUTED 3).

Definition remote_rect : Shape :=
  mkShape (mkBBox 300 500 400 510) UNDEFINED.

(** An undecided rectangle over the first line of [paragraph]. *)
Definition highlight_rect : Shape :=
  mkShape (mkBBox 10 100 200 112) UNDEFINED.

Definition raw_block : gmap string RawValue :=
  <[ "type"%string := RawInt 0 ]>
  (<[ "bbox"%string := RawRect (mkBBox 0 0 50 10) ]>
  (<[ "lines"%string := RawLines [mkRawLine (mkBBox 0 0 50 10) LEFT_RIGHT []] ]> ∅)).

End Demo.

(** ** Further vocabulary for the properties below *)

Section Vocabulary.

Context {E : Env}.

(** The margin between the block and the page on the trailing side. *)
Definition trailing_margin (self : TextBlock) (page : BBox) : Q :=
  if is_horizontal_text self
  then x1 page - x1 (bbox self)
  else y0 (bbox self) - y0 page.

(** The middle of a box along the text flow. *)
Definition centre (self : TextBlock) (b : BBox) : Q :=
  (leading_edge self b + trailing_edge self b) / 2.

(** All the values [f line], over the lines of the block, are within [DM]
    of each other. *)
Definition lines_within_DM (self : TextBlock) (f : Line -> Q) : Prop :=
  forall l1 l2, l1 ∈ lines self -> l2 ∈ lines self -> Qabs (f l1 - f l2) <= DM.

(** The spans behind the runs of a paragraph, line breaks left out. *)
Definition span_runs (rs : list Run) : list Span :=
  omap (fun r => match r with SpanRun s => Some s | TextRun _ => None end) rs.

(** The number of line breaks among the runs of a paragraph. *)
Definition is_break (r : Run) : bool :=
  match r with
  | TextRun t => String.eqb t newline
  | SpanRun _ => false
  end.

Definition break_count (rs : list Run) : Z :=
  Z.of_nat (length (filter (fun r => is_break r = true) rs)).

(** The image spans among the spans of a line. *)
Definition images (ss : list Span) : list Span :=
  filter (fun s => is_ImageSpan s = true) ss.

(** What [parse_text_format] keeps of a line: the object, its bbox and its
    direction; and the image spans, in their order. *)
Definition same_line (l l' : Line) : Prop :=
  line_id l' = line_id l /\ line_bbox l' = line_bbox l
  /\ line_text_direction l' = line_text_direction l.

Definition images_kept (l l' : Line) : Prop :=
  images (spans l) `sublist_of` images (spans l').


End Vocabulary.

(** ** [TextBlock.text] *)

(** [sep.join(xs)]. *)
Fixpoint py_join (sep : string) (xs : list string) : string :=
  match xs with
  | [] => EmptyString
  | x :: rest =>
      match rest with
      | [] => x
      | _ :: _ => String.append x (String.append sep (py_join sep rest))
      end
  end.

Section Text.

(** [line.text], a property of the class [Line]. *)
Variable line_text : Line -> string.

Definition text (self : TextBlock) : string :=
  let lines_text := map line_text (lines self) in
  py_join newline lines_text.

End Text.

(** [s.split(c)] for a separator of one character, and the test that [c]
    does not occur in [s]. *)
Fixpoint py_split (c : Ascii.ascii) (s : string) : list string :=
  match s with
  | EmptyString => [EmptyString]
  | String a s' =>
      if Ascii.eqb a c then EmptyString :: py_split c s'
      else
        match py_split c s' with
        | [] => [String a EmptyString]
        | piece :: pieces => String a piece :: pieces
        end
  end.

Fixpoint free_of (c : Ascii.ascii) (s : string) : bool :=
  match s with
  | EmptyString => true
  | String a s' => negb (Ascii.eqb a c) && free_of c s'
  end.

(** ** More sample blocks *)

Module Samples.


(** The text of the lines of [Demo.paragraph], by their identity. *)
Definition sample_text (line : Line) : string :=
  match line_id line with
  | 0%nat => "Lorem ipsum"
  | 1%nat => "dolor sit"
  | _ => "amet"
  end.

(** Two rows, with the line object of the first row appended once more
    after the second: [lines[0] is lines[2]]. *)
Definition repeated_line : TextBlock :=
  Demo.block (mkBBox 0 0 50 30)
    [Demo.text_line 0 0 0 50 10; Demo.text_line 1 0 20 50 30;
     Demo.text_line 0 0 0 50 10] 0.

End Samples.

(** ** [TextBlock.set_alignment] in double precision

    Python's [float] is the IEEE 754 binary64 format, and the tests of lines
    86-88 subtract before they compare: the difference is rounded to the
    nearest double.  Here the method is embedded over the binary64 numbers
    of the kernel, operation by operation: [-], [*], [/], [abs], [<] and
    [<=] are the IEEE operations of [PrimFloat], with a comparison on a NaN
    false as in Python. *)
Module Double.

Import Floats.

(** [fitz.Rect], with float coordinates. *)
Record BBox : Set := mkBBox { x0 : float; y0 : float; x1 : float; y1 : float }.

Definition item (b : BBox) (i : nat) : float :=
  match i with
  | 0%nat => x0 b
  | 1%nat => y0 b
  | 2%nat => x1 b
  | _ => y1 b
  end.

(** What [set_alignment] reads of a line, and what it reads and writes of
    the block. *)
Record Line : Set := mkLine { line_bbox : BBox }.

Record TextBlock : Set := mkTextBlock {
  bbox : BBox;
  lines : list Line;
  alignment : TextAlignment;
  left_space : float;
  right_space : float
}.

Definition set_alignment_left (self : TextBlock) (d : float) : TextBlock :=
  mkTextBlock (bbox self) (lines self) LEFT d (right_space self).

Definition set_alignment_right (self : TextBlock) (d : float) : TextBlock :=
  mkTextBlock (bbox self) (lines self) RIGHT (left_space self) d.

Definition set_alignment_center (self : TextBlock) : TextBlock :=
  mkTextBlock (bbox self) (lines self) CENTER (left_space self) (right_space self).

(** [max(xs)] and [min(xs)], as in the runtime above. *)
Fixpoint max_from (m : float) (xs : list float) : float :=
  match xs with
  | [] => m
  | x :: rest => max_from (if PrimFloat.ltb m x then x else m) rest
  end.

Fixpoint min_from (m : float) (xs : list float) : float :=
  match xs with
  | [] => m
  | x :: rest => min_from (if PrimFloat.ltb x m then x else m) rest
  end.

Definition py_max (xs : list float) : result float :=
  match xs with
  | [] => Raise ValueError
  | x :: rest => Ok (max_from x rest)
  end.

Definition py_min (xs : list float) : result float :=
  match xs with
  | [] => Raise ValueError
  | x :: rest => Ok (min_from x rest)
  end.

Section SetAlignment.

(** [constants.DM] and [Block.is_horizontal_text]. *)
Variable DM : float.
Variable is_horizontal_text : TextBlock -> bool.

(** [abs(max(X) - min(X)) <= DM]. *)
Definition within_DM (X : list float) : result bool :=
  do hi <- py_max X;
  do lo <- py_min X;
  Ok (PrimFloat.leb (PrimFloat.abs (PrimFloat.sub hi lo)) DM).

Definition set_alignment (self : TextBlock) (page : BBox) : result TextBlock :=
  let '(idx0, idx1, f) :=
    if is_horizontal_text self
    then (0%nat, 2%nat, 1%float) else (3%nat, 1%nat, (-1)%float) in
  let d_left :=
    PrimFloat.mul (PrimFloat.sub (item (bbox self) idx0) (item page idx0)) f in
  let d_right :=
    PrimFloat.mul (PrimFloat.sub (item page idx1) (item (bbox self) idx1)) f in
  let d_center := PrimFloat.div (PrimFloat.sub d_left d_right) 2%float in
  let X0 := map (fun line => item (line_bbox line) idx0) (lines self) in
  let X1 := map (fun line => item (line_bbox line) idx1) (lines self) in
  let X :=
    map (fun p => PrimFloat.div (PrimFloat.add (fst p) (snd p)) 2%float)
        (zip X0 X1) in
  do left_aligned <- within_DM X0;
  do right_aligned <- within_DM X1;
  do center_aligned <- within_DM X;
  if left_aligned && negb right_aligned then
    Ok (set_alignment_left self d_left)
  else if right_aligned && negb left_aligned then
    Ok (set_alignment_right self d_right)
  else if center_aligned && negb left_aligned && negb right_aligned then
    Ok (set_alignment_center self)
  else if PrimFloat.ltb (PrimFloat.abs d_center) DM then
    Ok (set_alignment_center self)
  else if PrimFloat.leb (PrimFloat.abs d_left) (PrimFloat.abs d_right) then
    Ok (set_alignment_left self d_left)
  else
    Ok (set_alignment_right self d_right).

(** Leading and trailing edge of a box along the text flow, and the margin
    on the leading side as line 78 computes it. *)
Definition leading_edge (self : TextBlock) (b : BBox) : float :=
  if is_horizontal_text self then x0 b else y1 b.

Definition trailing_edge (self : TextBlock) (b : BBox) : float :=
  if is_horizontal_text self then x1 b else y0 b.

Definition d_left (self : TextBlock) (page : BBox) : float :=
  PrimFloat.mul
    (PrimFloat.sub (leading_edge self (bbox self)) (leading_edge self page))
    (if is_horizontal_text self then 1%float else (-1)%float).


End SetAlignment.

(** The rational number a finite double stands for, and the distance of two
    doubles as rational numbers. *)
Definition exact (x : float) : Q :=
  match Prim2SF x with
  | S754_finite s m e =>
      (if s then -(1) else 1) * inject_Z (Zpos m) * Qpower 2 e
  | _ => 0
  end.


(** Blocks of horizontal text on a page of 600 by 800, with a tolerance
    of 1.0. *)
Definition horizontal (self : TextBlock) : bool := true.


Definition page : BBox := mkBBox 0 0 600 800.

(** Three left-aligned rows, ragged on the right, 10.0 from the left side
    of the page. *)
Definition paragraph : TextBlock :=
  mkTextBlock (mkBBox 10 100 200 136)
    [mkLine (mkBBox 10 100 200 112); mkLine (mkBBox 10 112 180 124);
     mkLine (mkBBox 10 124 150 136)] LEFT 0 0.







End Double.

(** ** Comparisons and the builtins *)

Lemma Qleb_true (a b : Q) : Qleb a b = true <-> a <= b.
Proof. unfold Qleb. apply Qle_bool_iff. Qed.

Lemma Qleb_false (a b : Q) : Qleb a b = false <-> b < a.
Proof.
  unfold Qleb. split; intros H.
  - apply Qnot_le_lt. intros Hle. apply Qle_bool_iff in Hle. congruence.
  - destruct (Qle_bool a b) eqn:Hb; [|reflexivity].
    apply Qle_bool_iff in Hb. lra.
Qed.

Lemma Qltb_true (a b : Q) : Qltb a b = true <-> a < b.
Proof.
  unfold Qltb. rewrite negb_true_iff. apply (Qleb_false b a).
Qed.

Lemma Qltb_false (a b : Q) : Qltb a b = false <-> b <= a.
Proof.
  unfold Qltb. rewrite negb_false_iff. apply (Qleb_true b a).
Qed.

Lemma py_div_ok (x : Q) (n : Z) : n <> 0%Z -> py_div x n = Ok (x / inject_Z n).
Proof.
  intros Hn. unfold py_div. destruct (Z.eqb_spec n 0); [contradiction|reflexivity].
Qed.

Lemma getitem_Some {A : Type} (xs : list A) (i : nat) (x : A) :
  xs !! i = Some x -> getitem xs i = Ok x.
Proof. intros H. unfold getitem. rewrite H. reflexivity. Qed.

Lemma inject_Z_pos (n : Z) : (0 < n)%Z -> 0 < inject_Z n.
Proof. intros H. change 0 with (inject_Z 0). rewrite <- Zlt_Qlt. exact H. Qed.

Section ParseLineSpacing.

Context {E : Env}.

(** The counter never decreases. *)
Lemma count_rows_ge (ls : list Line) :
  forall ref_line count, (count <= count_rows ref_line count ls)%Z.
Proof.
  induction ls as [|line rest IH]; intros ref_line count; simpl.
  - lia.
  - destruct (in_same_row line ref_line); simpl.
    + apply IH.
    + specialize (IH (Some line) (count + 1)%Z). lia.
Qed.

(** After a first line, the loop adds one for every line that is not in the
    row of its predecessor. *)
Lemma count_rows_pairs (ls : list Line) :
  forall prev count,
    count_rows (Some prev) count ls =
    (count + Z.of_nat (length (filter
        (fun p => in_same_row (snd p) (Some (fst p)) = false)
        (zip (prev :: ls) ls))))%Z.
Proof.
  induction ls as [|line rest IH]; intros prev count.
  - simpl. lia.
  - change (zip (prev :: line :: rest) (line :: rest))
      with ((prev, line) :: zip (line :: rest) rest).
    cbn [count_rows]. rewrite IH, filter_cons. cbn [fst snd].
    destruct (decide (in_same_row line (Some prev) = false)) as [Hrow|Hrow].
    + rewrite Hrow. cbn [negb length]. lia.
    + apply not_false_is_true in Hrow. rewrite Hrow. cbn [negb]. lia.
Qed.

(** The loop computes the row count of the specification. *)
Lemma count_rows_row_count (ls : list Line) :
  (forall line, in_same_row line None = false) ->
  count_rows None 0 ls = row_count ls.
Proof.
  intros Hnone. destruct ls as [|line rest]; [reflexivity|].
  cbn [count_rows]. rewrite Hnone. cbn [negb].
  rewrite count_rows_pairs. unfold row_count, consecutive_pairs. reflexivity.
Qed.

Lemma row_count_pos (ls : list Line) : ls <> [] -> (1 <= row_count ls)%Z.
Proof. destruct ls; [congruence|]. intros _. unfold row_count. lia. Qed.

(** Lines 252-278 on a block with a first line: the count is the row count,
    and the block comes back with the average spacing and the adjusted
    space before. *)
Lemma average_line_spacing_ok (self : TextBlock) (line0 : Line) (rest : list Line) :
  (forall line, in_same_row line None = false) ->
  lines self = line0 :: rest ->
  let count := row_count (lines self) in
  let first_line_height := row_extent self (line_bbox line0) in
  let block_height := row_extent self (bbox self) in
  let average :=
    if (1 <? count)%Z
    then (block_height - first_line_height) / inject_Z (count - 1)
    else block_height in
  average_line_spacing self =
  Ok (count,
      set_before_space (set_line_space self average)
        (before_space self + (first_line_height - average))).
Proof.
  intros Hnone Hlines count first_line_height block_height average.
  unfold average_line_spacing.
  rewrite (count_rows_row_count _ Hnone). fold count.
  rewrite Hlines at 1. cbn [getitem lookup list_lookup bind].
  assert (Hh : item (line_bbox line0) ((if is_horizontal_text self then 1 else 0) + 2)%nat
               - item (line_bbox line0) (if is_horizontal_text self then 1 else 0)%nat
               = first_line_height).
  { unfold first_line_height, row_extent. destruct (is_horizontal_text self); reflexivity. }
  assert (Hb : item (bbox self) ((if is_horizontal_text self then 1 else 0) + 2)%nat
               - item (bbox self) (if is_horizontal_text self then 1 else 0)%nat
               = block_height).
  { unfold block_height, row_extent. destruct (is_horizontal_text self); reflexivity. }
  rewrite Hh, Hb. unfold average.
  destruct (Z.ltb_spec 1 count) as [Hc|Hc].
  - rewrite py_div_ok by lia. reflexivity.
  - reflexivity.
Qed.

Lemma average_line_spacing_inv (self adj : TextBlock) (count : Z) :
  (forall line, in_same_row line None = false) ->
  average_line_spacing self = Ok (count, adj) ->
  exists line0 rest, lines self = line0 :: rest /\ count = row_count (lines self).
Proof.
  intros Hnone Hok. destruct (lines self) as [|line0 rest] eqn:Hlines.
  - unfold average_line_spacing in Hok. rewrite Hlines in Hok. discriminate.
  - exists line0, rest. split; [reflexivity|].
    rewrite (average_line_spacing_ok self line0 rest Hnone Hlines) in Hok.
    rewrite Hlines in Hok. congruence.
Qed.

(** On a block with a line whose first line counts, [parse_line_spacing]
    returns. *)
Lemma parse_line_spacing_returns (self : TextBlock) :
  (forall line, in_same_row line None = false) ->
  lines self <> [] -> returns (parse_line_spacing self).
Proof.
  intros Hnone Hne. destruct (lines self) as [|line0 rest] eqn:Hlines; [congruence|].
  pose proof (average_line_spacing_ok self line0 rest Hnone Hlines) as Hok.
  cbv zeta in Hok.
  assert (Hpos : (1 <= row_count (lines self))%Z).
  { apply row_count_pos. rewrite Hlines. discriminate. }
  unfold parse_line_spacing, returns. rewrite Hok. cbn [bind fst snd].
  unfold clamp_before_space. destruct (Qltb _ 0).
  - rewrite py_div_ok by lia. cbn [bind]. eexists. reflexivity.
  - eexists. reflexivity.
Qed.

(** C5.  For a block with at least one line, [parse_line_spacing] counts
    the logical rows (the first line, and every line not in the row of its
    predecessor), sets [line_space] to
    (block_height - first_line_height) / (row_count - 1) when the row count
    exceeds 1 and to block_height otherwise, and then increases
    [before_space] by first_line_height - line_space; this is the state the
    method returns unless the space before has become negative.  With block
    height 100, first line height 20 and 5 rows, [line_space] is 20 and the
    adjustment is 0. *)
Theorem C5_average_line_spacing (self : TextBlock) (line0 : Line) (rest : list Line) :
  (forall line, in_same_row line None = false) ->
  lines self = line0 :: rest ->
  let count := row_count (lines self) in
  let first_line_height := row_extent self (line_bbox line0) in
  let block_height := row_extent self (bbox self) in
  exists adj,
    average_line_spacing self = Ok (count, adj) /\
    line_space adj ==
      (if (1 <? count)%Z
       then (block_height - first_line_height) / inject_Z (count - 1)
       else block_height) /\
    before_space adj == before_space self + (first_line_height - line_space adj) /\
    (0 <= before_space adj -> parse_line_spacing self = Ok adj) /\
    (block_height == 100 -> first_line_height == 20 -> count = 5%Z ->
     line_space adj == 20 /\ before_space adj == before_space self + 0).
Proof.
  intros Hnone Hlines count first_line_height block_height.
  pose proof (average_line_spacing_ok self line0 rest Hnone Hlines) as Hok.
  cbv zeta in Hok. fold count first_line_height block_height in Hok.
  eexists. split; [exact Hok|]. cbn [line_space before_space set_before_space set_line_space].
  split; [reflexivity|]. split; [reflexivity|]. split.
  - intros Hpos. unfold parse_line_spacing. rewrite Hok.
    cbn [bind fst snd]. unfold clamp_before_space.
    cbn [line_space before_space set_before_space set_line_space].
    destruct (Qltb _ 0) eqn:Hneg; [|reflexivity].
    apply Qltb_true in Hneg. lra.
  - intros Hb Hf Hc. rewrite Hc. change (1 <? 5)%Z with true. cbv iota.
    change (inject_Z (5 - 1)) with 4.
    assert (Hls : (block_height - first_line_height) / 4 == 20).
    { rewrite Hb, Hf. reflexivity. }
    split; [exact Hls|]. rewrite Hls, Hf. reflexivity.
Qed.

(** C4.  In [parse_line_spacing], whenever the adjusted [before_space] is
    negative it is set to exactly zero and [line_space] is reduced by
    deficit / row_count, the deficit being the magnitude of the negative
    space; with an adjusted space of -4 and 2 rows, [before_space] becomes 0
    and [line_space] is reduced by 2. *)
Theorem C4_clamp_before_space (self adj : TextBlock) (count : Z) :
  (forall line, in_same_row line None = false) ->
  average_line_spacing self = Ok (count, adj) ->
  before_space adj < 0 ->
  exists self',
    parse_line_spacing self = Ok self' /\
    before_space self' = 0 /\
    line_space self' == line_space adj - (- before_space adj) / inject_Z count /\
    (before_space adj == -(4) -> count = 2%Z ->
     line_space self' == line_space adj - 2).
Proof.
  intros Hnone Hok Hneg.
  destruct (average_line_spacing_inv self adj count Hnone Hok)
    as (line0 & rest & Hlines & Hcount).
  assert (Hpos : (1 <= count)%Z).
  { rewrite Hcount. apply row_count_pos. rewrite Hlines. discriminate. }
  unfold parse_line_spacing. rewrite Hok. cbn [bind fst snd].
  unfold clamp_before_space.
  apply Qltb_true in Hneg. rewrite Hneg.
  rewrite py_div_ok by lia. cbn [bind].
  eexists. split; [reflexivity|].
  cbn [line_space before_space set_before_space set_line_space].
  split; [reflexivity|].
  assert (Hc : ~ inject_Z count == 0).
  { intros H0. pose proof (inject_Z_pos count ltac:(lia)). lra. }
  split.
  - field. exact Hc.
  - intros H4 H2. rewrite H4, H2. change (inject_Z 2) with 2. field.
Qed.


End ParseLineSpacing.

(** ** [max] and [min] of a list *)

Lemma max_from_ge_init (xs : list Q) : forall m, m <= max_from m xs.
Proof.
  induction xs as [|x rest IH]; intros m; simpl.
  - lra.
  - destruct (Qltb m x) eqn:Hlt.
    + apply Qltb_true in Hlt. specialize (IH x). lra.
    + apply IH.
Qed.

Lemma max_from_upper (xs : list Q) :
  forall m a, a ∈ m :: xs -> a <= max_from m xs.
Proof.
  induction xs as [|x rest IH]; intros m a Ha.
  - apply list_elem_of_singleton in Ha. subst a. simpl. lra.
  - simpl. apply elem_of_cons in Ha as [->|Ha].
    + pose proof (max_from_ge_init rest (if Qltb m x then x else m)) as Hge.
      destruct (Qltb m x) eqn:Hlt; [apply Qltb_true in Hlt; lra|exact Hge].
    + destruct (Qltb m x) eqn:Hlt.
      * apply IH. exact Ha.
      * apply Qltb_false in Hlt. apply elem_of_cons in Ha as [->|Ha].
        -- pose proof (max_from_ge_init rest m). lra.
        -- apply IH. apply elem_of_cons. right. exact Ha.
Qed.

Lemma max_from_elem (xs : list Q) : forall m, max_from m xs ∈ m :: xs.
Proof.
  induction xs as [|x rest IH]; intros m; simpl.
  - apply list_elem_of_singleton. reflexivity.
  - specialize (IH (if Qltb m x then x else m)).
    apply elem_of_cons in IH as [Heq|Hin].
    + rewrite Heq. destruct (Qltb m x).
      * apply elem_of_cons. right. apply elem_of_cons. left. reflexivity.
      * apply elem_of_cons. left. reflexivity.
    + apply elem_of_cons. right. apply elem_of_cons. right. exact Hin.
Qed.

Lemma min_from_le_init (xs : list Q) : forall m, min_from m xs <= m.
Proof.
  induction xs as [|x rest IH]; intros m; simpl.
  - lra.
  - destruct (Qltb x m) eqn:Hlt.
    + apply Qltb_true in Hlt. specialize (IH x). lra.
    + apply IH.
Qed.

Lemma min_from_lower (xs : list Q) :
  forall m a, a ∈ m :: xs -> min_from m xs <= a.
Proof.
  induction xs as [|x rest IH]; intros m a Ha.
  - apply list_elem_of_singleton in Ha. subst a. simpl. lra.
  - simpl. apply elem_of_cons in Ha as [->|Ha].
    + pose proof (min_from_le_init rest (if Qltb x m then x else m)) as Hle.
      destruct (Qltb x m) eqn:Hlt; [apply Qltb_true in Hlt; lra|exact Hle].
    + destruct (Qltb x m) eqn:Hlt.
      * apply IH. exact Ha.
      * apply Qltb_false in Hlt. apply elem_of_cons in Ha as [->|Ha].
        -- pose proof (min_from_le_init rest m). lra.
        -- apply IH. apply elem_of_cons. right. exact Ha.
Qed.

Lemma min_from_elem (xs : list Q) : forall m, min_from m xs ∈ m :: xs.
Proof.
  induction xs as [|x rest IH]; intros m; simpl.
  - apply list_elem_of_singleton. reflexivity.
  - specialize (IH (if Qltb x m then x else m)).
    apply elem_of_cons in IH as [Heq|Hin].
    + rewrite Heq. destruct (Qltb x m).
      * apply elem_of_cons. right. apply elem_of_cons. left. reflexivity.
      * apply elem_of_cons. left. reflexivity.
    + apply elem_of_cons. right. apply elem_of_cons. right. exact Hin.
Qed.

Lemma Qabs_diff_between (lo hi a b : Q) :
  lo <= a <= hi -> lo <= b <= hi -> Qabs (a - b) <= Qabs (hi - lo).
Proof.
  intros Ha Hb. pose proof (Qle_Qabs (hi - lo)) as Habs.
  apply Qabs_case; intros _; lra.
Qed.

Section SetAlignment.

Context {E : Env}.

(** On a non-empty list the test returns, and it holds exactly when any two
    items are within [DM] of each other. *)
Lemma within_DM_spec (x : Q) (rest : list Q) :
  exists b,
    within_DM (x :: rest) = Ok b /\
    (b = true <-> forall a c, a ∈ x :: rest -> c ∈ x :: rest -> Qabs (a - c) <= DM).
Proof.
  unfold within_DM. cbn [py_max py_min bind].
  eexists. split; [reflexivity|]. rewrite Qleb_true. split.
  - intros Hspread a c Ha Hc.
    pose proof (max_from_upper rest x a Ha). pose proof (max_from_upper rest x c Hc).
    pose proof (min_from_lower rest x a Ha). pose proof (min_from_lower rest x c Hc).
    pose proof (Qabs_diff_between (min_from x rest) (max_from x rest) a c
                  ltac:(split; assumption) ltac:(split; assumption)).
    lra.
  - intros Hall. apply Hall; [apply max_from_elem|apply min_from_elem].
Qed.

Lemma within_DM_lines (f : Line -> Q) (line0 : Line) (rest : list Line) :
  exists b,
    within_DM (map f (line0 :: rest)) = Ok b /\
    (b = true <->
     forall l1 l2, l1 ∈ line0 :: rest -> l2 ∈ line0 :: rest ->
                   Qabs (f l1 - f l2) <= DM).
Proof.
  destruct (within_DM_spec (f line0) (map f rest)) as (b & Hb & Hiff).
  exists b. split; [exact Hb|]. rewrite Hiff. split.
  - intros Hall l1 l2 H1 H2.
    apply Hall; apply list_elem_of_In; apply (in_map f (line0 :: rest));
      apply list_elem_of_In; assumption.
  - intros Hall a c Ha Hc.
    apply list_elem_of_In in Ha. apply list_elem_of_In in Hc.
    apply (in_map_iff f (line0 :: rest)) in Ha as (l1 & <- & H1).
    apply (in_map_iff f (line0 :: rest)) in Hc as (l2 & <- & H2).
    apply Hall; apply list_elem_of_In; assumption.
Qed.

Lemma within_DM_returns (x : Q) (rest : list Q) :
  exists b, within_DM (x :: rest) = Ok b.
Proof. destruct (within_DM_spec x rest) as (b & Hb & _). exists b. exact Hb. Qed.

(** On a block with a line, [set_alignment] returns. *)
Lemma set_alignment_returns (self : TextBlock) (page : BBox) :
  lines self <> [] -> returns (set_alignment self page).
Proof.
  intros Hne. destruct (lines self) as [|line0 rest] eqn:Hlines; [congruence|].
  unfold set_alignment, returns.
  destruct (is_horizontal_text self); rewrite Hlines; cbn [map zip_with];
    match goal with
    | |- context [within_DM (?a :: ?r)] =>
        destruct (within_DM_returns a r) as (b0 & ->)
    end;
    match goal with
    | |- context [within_DM (?a :: ?r)] =>
        destruct (within_DM_returns a r) as (b1 & ->)
    end;
    match goal with
    | |- context [within_DM (?a :: ?r)] =>
        destruct (within_DM_returns a r) as (b2 & ->)
    end;
    cbn [bind];
    repeat match goal with
           | |- context [if ?c then _ else _] => destruct c
           end;
    eexists; reflexivity.
Qed.

(** Without lines both methods raise: [max] of an empty sequence, and
    [self.lines[0]]. *)
Lemma set_alignment_no_lines (self : TextBlock) (page : BBox) :
  lines self = [] -> set_alignment self page = Raise ValueError.
Proof.
  intros Hlines. unfold set_alignment.
  destruct (is_horizontal_text self); rewrite Hlines; reflexivity.
Qed.

Lemma parse_line_spacing_no_lines (self : TextBlock) :
  lines self = [] -> parse_line_spacing self = Raise IndexError.
Proof.
  intros Hlines. unfold parse_line_spacing, average_line_spacing.
  rewrite Hlines. reflexivity.
Qed.

(** C8 (amended).  For a block with at least one line, [set_alignment] and
    [parse_line_spacing] return without raising, whatever the geometry:
    zero-area boxes and single-line blocks go through the ordinary
    branches. *)
Theorem C8_no_exception (self : TextBlock) (page : BBox) :
  (forall line, in_same_row line None = false) ->
  lines self <> [] ->
  returns (set_alignment self page) /\ returns (parse_line_spacing self).
Proof.
  intros Hnone Hne. split.
  - apply set_alignment_returns. exact Hne.
  - apply parse_line_spacing_returns; assumption.
Qed.

End SetAlignment.

(** ** [set_alignment] in double precision *)



Section SetAlignmentDouble.

Variable DM : PrimFloat.float.
Variable is_horizontal_text : Double.TextBlock -> bool.




End SetAlignmentDouble.

(** ** [contains_discrete_lines] *)

Section DiscreteLines.

Context {E : Env}.

Lemma py_range_len (num : nat) : py_range (Z.of_nat num - 1) = seq 0 (num - 1).
Proof. unfold py_range. f_equal. lia. Qed.

Lemma gap_count_cons (distance : Q) (a b : Line) (rest : list Line) :
  gap_count distance (a :: b :: rest) =
  ((if wide_gap distance (a, b) then 1 else 0) + gap_count distance (b :: rest))%Z.
Proof.
  unfold gap_count, consecutive_pairs.
  change (zip (a :: b :: rest) (tail (a :: b :: rest)))
    with ((a, b) :: zip (b :: rest) (tail (b :: rest))).
  rewrite filter_cons.
  destruct (decide (wide_gap distance (a, b) = true)) as [Hw|Hw].
  - rewrite Hw. cbn [length]. lia.
  - apply not_true_is_false in Hw. rewrite Hw. lia.
Qed.

(** The index loop over the tail of the list: it returns [True] at the
    first aligned pair lying in two rows, and otherwise adds the number of
    wide gaps to the counter. *)
Lemma discrete_lines_loop_spec (distance : Q) (suffix : list Line) :
  forall (pre : list Line) (cnt : Z),
    discrete_lines_loop (pre ++ suffix) distance
      (seq (length pre) (length suffix - 1)) cnt =
    Ok (if existsb aligned_other_row (consecutive_pairs suffix)
        then Return true
        else Continue (cnt + gap_count distance suffix)%Z).
Proof.
  induction suffix as [|a rest IH]; intros pre cnt.
  - cbn. f_equal. f_equal. unfold gap_count. cbn. lia.
  - destruct rest as [|b rest].
    + cbn. f_equal. f_equal. unfold gap_count. cbn. lia.
    + change (length (a :: b :: rest) - 1)%nat with (S (length rest)).
      cbn [seq discrete_lines_loop].
      assert (Ha : (pre ++ a :: b :: rest) !! length pre = Some a).
      { rewrite lookup_app_r by lia. rewrite Nat.sub_diag. reflexivity. }
      assert (Hb : (pre ++ a :: b :: rest) !! (length pre + 1)%nat = Some b).
      { rewrite lookup_app_r by lia.
        replace (length pre + 1 - length pre)%nat with 1%nat by lia. reflexivity. }
      rewrite (getitem_Some _ _ _ Ha), (getitem_Some _ _ _ Hb). cbn [bind].
      specialize (IH (pre ++ [a])).
      rewrite <- app_assoc in IH. cbn [app] in IH.
      rewrite length_app in IH. cbn [length] in IH.
      replace (length pre + 1)%nat with (S (length pre)) in IH by lia.
      replace (S (length rest) - 1)%nat with (length rest) in IH by lia.
      unfold consecutive_pairs.
      change (zip (a :: b :: rest) (tail (a :: b :: rest)))
        with ((a, b) :: zip (b :: rest) (tail (b :: rest))).
      cbn [existsb]. rewrite gap_count_cons.
      unfold aligned_other_row at 1, wide_gap. cbn [fst snd].
      destruct (horizontally_align_with a b); cbn [andb].
      * destruct (in_same_row a (Some b)); cbn [negb andb orb].
        -- destruct (Qltb distance _); rewrite IH; unfold consecutive_pairs;
             destruct (existsb _ _); f_equal; f_equal; lia.
        -- reflexivity.
      * rewrite IH. unfold consecutive_pairs.
        destruct (existsb _ _); f_equal; f_equal; lia.
Qed.

(** The method as a whole. *)
Lemma contains_discrete_lines_spec (self : TextBlock) (distance : Q) (threshold : Z) :
  contains_discrete_lines self distance threshold =
  Ok (if (length (lines self) =? 1)%nat then false
      else if negb (bool_decide (image_spans (lines self) = [])) then true
      else if is_vertical_text self then true
      else existsb aligned_other_row (consecutive_pairs (lines self))
           || (threshold <=? 1 + gap_count distance (lines self))%Z).
Proof.
  unfold contains_discrete_lines.
  destruct (length (lines self) =? 1)%nat; [reflexivity|].
  destruct (negb _); [reflexivity|].
  destruct (is_vertical_text self); [reflexivity|].
  rewrite py_range_len.
  pose proof (discrete_lines_loop_spec distance (lines self) [] 1%Z) as Hloop.
  cbn [app length] in Hloop. rewrite Hloop. cbn [bind].
  destruct (existsb _ _); reflexivity.
Qed.

(** A block of one line is never discrete. *)
Lemma contains_discrete_lines_single (self : TextBlock) (distance : Q)
    (threshold : Z) :
  length (lines self) = 1%nat ->
  contains_discrete_lines self distance threshold = Ok false.
Proof.
  intros Hlen. unfold contains_discrete_lines. rewrite Hlen. reflexivity.
Qed.

(** C1.  The scenario of the claim, as the code decides it: in a block of
    horizontal text without images whose two lines are horizontally aligned,
    in the same row and more than 25 apart by the test of line 192, the
    count of such pairs is 1 and [contains_discrete_lines] with distance 25
    and threshold 2 answers discrete.  The counter starts at 1 (line 182),
    the pair takes it to 2, and line 195 returns [cnt >= threshold]. *)
Theorem C1_single_gap_discrete (self : TextBlock) (a b : Line) :
  is_vertical_text self = false ->
  image_spans (lines self) = [] ->
  lines self = [a; b] ->
  horizontally_align_with a b = true ->
  in_same_row a (Some b) = true ->
  Qltb 25 (Qabs (x1 (line_bbox a) - x0 (line_bbox b))) = true ->
  gap_count 25 (lines self) = 1%Z /\
  contains_discrete_lines self 25 2 = Ok true.
Proof.
  intros Hvert Himg Hlines Halign Hrow Hgap.
  assert (Hwide : wide_gap 25 (a, b) = true).
  { unfold wide_gap. cbn [fst snd]. rewrite Halign, Hrow, Hgap. reflexivity. }
  assert (Hcount : gap_count 25 (lines self) = 1%Z).
  { rewrite Hlines, gap_count_cons, Hwide. reflexivity. }
  split; [exact Hcount|].
  rewrite contains_discrete_lines_spec, Hvert, Himg, Hcount, Hlines.
  cbn [length Nat.eqb]. rewrite bool_decide_eq_true_2 by reflexivity.
  cbn [negb]. unfold consecutive_pairs. cbn [tail zip_with existsb].
  unfold aligned_other_row. cbn [fst snd]. rewrite Halign, Hrow. reflexivity.
Qed.

(** C2 (amended).  A block that contains an image span and whose number of
    lines is not one is classified discrete, whatever its geometry, the
    distance and the threshold. *)
Theorem C2_image_spans_discrete (self : TextBlock) (distance : Q) (threshold : Z) :
  image_spans (lines self) <> [] ->
  length (lines self) <> 1%nat ->
  contains_discrete_lines self distance threshold = Ok true.
Proof.
  intros Himg Hlen. rewrite contains_discrete_lines_spec.
  destruct (Nat.eqb_spec (length (lines self)) 1) as [Hone|_]; [contradiction|].
  rewrite bool_decide_eq_false_2 by exact Himg. reflexivity.
Qed.

End DiscreteLines.

(** ** [make_docx] *)

Lemma foldl_span_make_docx (ss : list Span) :
  forall rs, foldl (fun acc span => span_make_docx span acc) rs ss
             = rs ++ map SpanRun ss.
Proof.
  induction ss as [|span rest IH]; intros rs; cbn [foldl map].
  - rewrite app_nil_r. reflexivity.
  - rewrite IH. unfold span_make_docx. rewrite <- app_assoc. reflexivity.
Qed.

Section MakeDocx.

Context {E : Env}.

(** The decision of lines 338-345 on the [i]-th line of a block whose lines
    are distinct objects. *)
Lemma line_break_spec (self : TextBlock) (i : nat) (line : Line) :
  NoDup (map line_id (lines self)) ->
  lines self !! i = Some line ->
  line_break self i line = Ok (break_expected (lines self) i line).
Proof.
  intros Hdup Hi. unfold line_break, break_expected, getlast.
  pose proof (lookup_lt_Some _ _ _ Hi) as Hlt.
  rewrite last_lookup.
  destruct (lookup_lt_is_Some_2 (lines self) (pred (length (lines self)))
              ltac:(lia)) as [last_line Hlast].
  rewrite Hlast. cbn [bind]. unfold line_eq.
  destruct (Nat.eqb_spec (line_id line) (line_id last_line)) as [Hid|Hid].
  - assert (i = pred (length (lines self))) as Hpos.
    { change (map line_id (lines self)) with (line_id <$> lines self) in Hdup.
      apply (NoDup_lookup _ i (pred (length (lines self))) (line_id line) Hdup).
      - rewrite list_lookup_fmap, Hi. reflexivity.
      - rewrite list_lookup_fmap, Hlast, Hid. reflexivity. }
    rewrite (lookup_ge_None_2 (lines self) (i + 1)) by lia. reflexivity.
  - assert (i <> pred (length (lines self))) as Hpos.
    { intros ->. rewrite Hlast in Hi. congruence. }
    destruct (lookup_lt_is_Some_2 (lines self) (i + 1) ltac:(lia))
      as [next_line Hnext].
    rewrite Hnext. unfold getitem. rewrite Hnext. cbn [bind].
    destruct (in_same_row line (Some next_line)); reflexivity.
Qed.

(** The loop over the enumerated lines, from the [k]-th line on. *)
Lemma make_docx_lines_spec (self : TextBlock) (suffix : list Line) :
  NoDup (map line_id (lines self)) ->
  forall (k : nat) (rs : list Run),
    (forall j line, suffix !! j = Some line -> lines self !! (k + j)%nat = Some line) ->
    make_docx_lines self (zip (seq k (length suffix)) suffix) rs =
    Ok (rs ++ flat_map
          (fun il =>
             map SpanRun (spans (snd il))
             ++ (if break_expected (lines self) (fst il) (snd il)
                 then [TextRun newline] else []))
          (zip (seq k (length suffix)) suffix)).
Proof.
  intros Hdup. induction suffix as [|line rest IH]; intros k rs Hsuffix.
  - cbn. rewrite app_nil_r. reflexivity.
  - cbn [length seq zip_with make_docx_lines flat_map fst snd].
    rewrite foldl_span_make_docx.
    rewrite (line_break_spec self k line Hdup).
    2:{ specialize (Hsuffix 0%nat line eq_refl).
        rewrite Nat.add_0_r in Hsuffix. exact Hsuffix. }
    cbn [bind]. rewrite IH.
    + rewrite !app_assoc.
      destruct (break_expected (lines self) k line); [reflexivity|].
      rewrite app_nil_r. reflexivity.
    + intros j l Hj. specialize (Hsuffix (S j) l Hj).
      replace (S k + j)%nat with (k + S j)%nat by lia. exact Hsuffix.
Qed.

(** C7 (amended).  In [make_docx], for a block whose lines are distinct
    objects, a line break follows the line at position [i] if and only if
    it is not the last line and [lines[i+1]] is not in the same row; the
    runs added to the paragraph are, line after line, the runs of the spans
    followed by a line break in exactly those positions. *)
Theorem C7_line_breaks (self : TextBlock) (p : Paragraph) :
  NoDup (map line_id (lines self)) ->
  (forall i line,
     lines self !! i = Some line ->
     exists br,
       line_break self i line = Ok br /\
       (br = true <->
        i <> (length (lines self) - 1)%nat /\
        exists next_line,
          lines self !! (i + 1)%nat = Some next_line /\
          in_same_row line (Some next_line) = false)) /\
  (exists p',
     make_docx self p = Ok p' /\
     runs p' = runs p ++ runs_expected (lines self)).
Proof.
  intros Hdup. split.
  - intros i line Hi. exists (break_expected (lines self) i line).
    split; [apply line_break_spec; assumption|].
    pose proof (lookup_lt_Some _ _ _ Hi) as Hlt.
    unfold break_expected. split.
    + destruct (lines self !! (i + 1)%nat) as [next_line|] eqn:Hnext;
        [|discriminate].
      intros Hrow. apply negb_true_iff in Hrow.
      pose proof (lookup_lt_Some _ _ _ Hnext). split; [lia|].
      exists next_line. split; [reflexivity|exact Hrow].
    + intros (_ & next_line & -> & Hrow). rewrite Hrow. reflexivity.
  - unfold make_docx.
    pose proof (make_docx_lines_spec self (lines self) Hdup 0%nat (runs p)
                  ltac:(intros j line Hj; exact Hj)) as Hloop.
    unfold enumerate. rewrite Hloop. cbn [bind].
    eexists. split; [reflexivity|]. reflexivity.
Qed.

End MakeDocx.

(** ** [parse_text_format] *)

Section ParseTextFormat.

Context {E : Env}.

(** One turn of the loop leaves everything as it is on a shape that is
    passed over. *)
Lemma parse_text_format_rect_passed_over (self : TextBlock) (rect : Shape)
    (flag : bool) :
  passed_over self rect ->
  parse_text_format_rect self rect flag = (self, rect, flag).
Proof.
  intros [Htype|Hbox]; unfold parse_text_format_rect.
  - rewrite Htype. reflexivity.
  - destruct (is_UNDEFINED (rect_type rect)); [|reflexivity].
    rewrite Hbox. reflexivity.
Qed.

Lemma parse_text_format_loop_passed_over (self : TextBlock) (rects : list Shape) :
  Forall (passed_over self) rects ->
  forall flag, parse_text_format_loop self rects flag = (self, rects, flag).
Proof.
  induction 1 as [|rect rest Hrect _ IH]; intros flag; cbn [parse_text_format_loop].
  - reflexivity.
  - rewrite (parse_text_format_rect_passed_over self rect flag Hrect), IH.
    reflexivity.
Qed.

Lemma not_relevant_passed_over (self : TextBlock) (rect : Shape) :
  relevant self rect = false -> passed_over self rect.
Proof.
  unfold relevant, passed_over. intros H.
  apply andb_false_iff in H. exact H.
Qed.

Lemma parse_text_format_rect_bbox (self : TextBlock) (rect : Shape) (flag : bool) :
  bbox (fst (fst (parse_text_format_rect self rect flag))) = bbox self.
Proof.
  unfold parse_text_format_rect.
  destruct (negb (is_UNDEFINED (rect_type rect))); [reflexivity|].
  destruct (negb (intersects (bbox self) (rect_bbox rect))); [reflexivity|].
  destruct (split_lines (lines self) rect flag) as [[ls rect'] flag'].
  reflexivity.
Qed.

(** Only the undecided shapes over the bbox of the block matter: the block
    and the flag are those of the call on these shapes alone. *)
Lemma parse_text_format_only_relevant (rects : list Shape) :
  forall (self : TextBlock) (flag : bool),
    let all := parse_text_format_loop self rects flag in
    let some := parse_text_format_loop self (List.filter (relevant self) rects) flag in
    fst (fst all) = fst (fst some) /\ snd all = snd some.
Proof.
  induction rects as [|rect rest IH]; intros self flag; cbn zeta.
  - split; reflexivity.
  - cbn [List.filter parse_text_format_loop].
    destruct (relevant self rect) eqn:Hrel.
    + cbn [parse_text_format_loop].
      pose proof (parse_text_format_rect_bbox self rect flag) as Hbox.
      destruct (parse_text_format_rect self rect flag) as [[self1 rect'] flag1].
      cbn [fst] in Hbox.
      assert (Hfilter : List.filter (relevant self) rest
                        = List.filter (relevant self1) rest).
      { apply List.filter_ext. intros r. unfold relevant. rewrite Hbox. reflexivity. }
      rewrite Hfilter. specialize (IH self1 flag1). cbn zeta in IH.
      destruct (parse_text_format_loop self1 rest flag1) as [[b out] f].
      destruct (parse_text_format_loop self1 (List.filter (relevant self1) rest) flag1)
        as [[b' out'] f'].
      exact IH.
    + rewrite (parse_text_format_rect_passed_over self rect flag
                 (not_relevant_passed_over self rect Hrel)).
      specialize (IH self flag). cbn zeta in IH.
      destruct (parse_text_format_loop self rest flag) as [[b out] f].
      exact IH.
Qed.

Lemma passed_over_not_relevant (self : TextBlock) (rects : list Shape) :
  Forall (passed_over self) rects -> List.filter (relevant self) rects = [].
Proof.
  induction 1 as [|rect rest Hrect _ IH]; [reflexivity|].
  cbn [List.filter]. rewrite IH.
  assert (Hrel : relevant self rect = false).
  { unfold relevant. apply andb_false_iff. exact Hrect. }
  rewrite Hrel. reflexivity.
Qed.

(** C9.  Shapes that are already attributed, or whose bbox does not
    intersect the bbox of the block, leave the block as it is: every line
    keeps its spans, the shapes are unchanged and no split is reported.
    Among other shapes they make no difference either: the block and the
    flag are those of the call without them, so that only undecided shapes
    over the bbox of the block can replace spans. *)
Theorem C9_passed_over_shapes (self : TextBlock) (rects before after : list Shape) :
  Forall (passed_over self) rects ->
  parse_text_format self rects = (self, rects, false) /\
  (let with_them := parse_text_format self (before ++ rects ++ after) in
   let without := parse_text_format self (before ++ after) in
   fst (fst with_them) = fst (fst without) /\ snd with_them = snd without).
Proof.
  intros Hall. split.
  - unfold parse_text_format.
    apply parse_text_format_loop_passed_over. exact Hall.
  - cbv zeta. unfold parse_text_format.
    pose proof (parse_text_format_only_relevant (before ++ rects ++ after) self false)
      as Hwith.
    pose proof (parse_text_format_only_relevant (before ++ after) self false)
      as Hwithout.
    cbv zeta in Hwith, Hwithout.
    rewrite !List.filter_app, (passed_over_not_relevant self rects Hall) in Hwith.
    rewrite List.filter_app in Hwithout. cbn [app] in Hwith.
    destruct Hwith as [Hb Hf]. destruct Hwithout as [Hb' Hf'].
    rewrite Hb, Hf, Hb', Hf'. split; reflexivity.
Qed.

End ParseTextFormat.

(** ** The constructor *)

Section Constructor.

Context {E : Env}.

(** C10.  When the raw dict passed to the constructor has a ['bbox'] entry,
    the dict the caller holds afterwards is the same dict without that
    entry: the constructor changes its argument. *)
Theorem C10_init_pops_bbox (raw : gmap string RawValue) :
  is_Some (raw !! "bbox"%string) ->
  fst (TextBlock_init raw) = delete "bbox"%string raw /\
  fst (TextBlock_init raw) !! "bbox"%string = None /\
  fst (TextBlock_init raw) <> raw.
Proof.
  intros [v Hv]. unfold TextBlock_init. rewrite Hv. cbn [fst].
  split; [reflexivity|]. split; [apply lookup_delete_eq|].
  intros Heq. assert (Hnone : delete "bbox"%string raw !! "bbox"%string = None)
    by apply lookup_delete_eq.
  rewrite Heq, Hv in Hnone. discriminate.
Qed.

End Constructor.

(** ** The theorems on the sample blocks *)

Lemma same_row_None (line : Line) : in_same_row (Env := Demo.env) line None = false.
Proof. reflexivity. Qed.

Ltac members :=
  repeat match goal with
         | H : _ ∈ [] |- _ => apply elem_of_nil in H; contradiction
         | H : _ ∈ _ :: _ |- _ => apply elem_of_cons in H as [->|H]
         end.

(** [two_fragments]: two lines on one row, 30 apart. *)
Lemma C1_single_gap_discrete_witness :
  is_vertical_text (Env := Demo.env) Demo.two_fragments = false /\
  image_spans (lines Demo.two_fragments) = [] /\
  length (lines Demo.two_fragments) = 2%nat /\
  gap_count (E := Demo.env) 25 (lines Demo.two_fragments) = 1%Z /\
  contains_discrete_lines (E := Demo.env) Demo.two_fragments 25 2 = Ok true.
Proof.
  assert (Hv : is_vertical_text (Env := Demo.env) Demo.two_fragments = false)
    by reflexivity.
  assert (Hi : image_spans (lines Demo.two_fragments) = []) by reflexivity.
  split; [exact Hv|]. split; [exact Hi|]. split; [reflexivity|].
  apply (C1_single_gap_discrete (E := Demo.env) Demo.two_fragments
           (Demo.text_line 0 0 0 10 10) (Demo.text_line 1 40 0 50 10)
           Hv Hi eq_refl);
    vm_compute; reflexivity.
Defined.

(** An image line above a text line: discrete. *)
Lemma C2_image_spans_discrete_witness :
  image_spans (lines Demo.image_and_text) <> [] /\
  length (lines Demo.image_and_text) <> 1%nat /\
  contains_discrete_lines (E := Demo.env) Demo.image_and_text 25 2 = Ok true.
Proof.
  assert (Hi : image_spans (lines Demo.image_and_text) <> []) by discriminate.
  assert (Hl : length (lines Demo.image_and_text) <> 1%nat) by discriminate.
  split; [exact Hi|]. split; [exact Hl|].
  apply (C2_image_spans_discrete (E := Demo.env) Demo.image_and_text 25 2 Hi Hl).
Defined.

(** A single line holding an image: an image span, and not discrete. *)
Lemma C2_counterexample :
  image_spans (lines Demo.single_image) <> [] /\
  contains_discrete_lines (E := Demo.env) Demo.single_image 25 2 = Ok false.
Proof. split; [discriminate|reflexivity]. Qed.



(** The line spacing can also end negative, in a block entered with a
    negative space before, and at 0 for two rows in a block no higher than
    its first line. *)
Example spacing_negative_on_entry :
  exists self',
    parse_line_spacing (E := Demo.env) Demo.overlapping_block = Ok self' /\
    line_space self' == -(20).
Proof. eexists. split; vm_compute; reflexivity. Qed.

Example spacing_rows_side_by_side :
  row_count (E := Demo.env) (lines Demo.side_by_side) = 2%Z /\
  exists self',
    parse_line_spacing (E := Demo.env) Demo.side_by_side = Ok self' /\
    line_space self' == 0.
Proof. split; [reflexivity|]. eexists. split; vm_compute; reflexivity. Qed.

(** [loose_rows]: the adjusted space is -4 with 2 rows; the spacing goes
    from 14 to 12. *)
Lemma C4_clamp_before_space_witness :
  average_line_spacing (E := Demo.env) Demo.loose_rows
    = Ok (2%Z, Demo.loose_rows_adjusted) /\
  before_space Demo.loose_rows_adjusted < 0 /\
  exists self',
    parse_line_spacing (E := Demo.env) Demo.loose_rows = Ok self' /\
    before_space self' = 0 /\
    line_space self' == 14 - 2.
Proof.
  assert (Hok : average_line_spacing (E := Demo.env) Demo.loose_rows
                = Ok (2%Z, Demo.loose_rows_adjusted)) by (vm_compute; reflexivity).
  assert (Hneg : before_space Demo.loose_rows_adjusted < 0) by reflexivity.
  split; [exact Hok|]. split; [exact Hneg|].
  destruct (C4_clamp_before_space (E := Demo.env) Demo.loose_rows
              Demo.loose_rows_adjusted 2 same_row_None Hok Hneg)
    as (self' & Hret & Hzero & _ & Hscenario).
  exists self'. split; [exact Hret|]. split; [exact Hzero|].
  apply Hscenario; reflexivity.
Defined.

(** [five_rows]: height 100, first line 20, 5 rows; spacing 20, adjustment 0. *)
Lemma C5_average_line_spacing_witness :
  row_count (E := Demo.env) (lines Demo.five_rows) = 5%Z /\
  exists adj,
    average_line_spacing (E := Demo.env) Demo.five_rows = Ok (5%Z, adj) /\
    line_space adj == 20 /\
    before_space adj == before_space Demo.five_rows + 0.
Proof.
  split; [vm_compute; reflexivity|].
  destruct (C5_average_line_spacing (E := Demo.env) Demo.five_rows _ _
              same_row_None eq_refl)
    as (adj & Hok & _ & _ & _ & Hscenario).
  exists adj. split; [exact Hok|].
  apply Hscenario; vm_compute; reflexivity.
Defined.



(** [paragraph]: a break after the first and the second line only. *)
Lemma C7_line_breaks_witness :
  NoDup (map line_id (lines Demo.paragraph)) /\
  exists p',
    make_docx (E := Demo.env) Demo.paragraph (mkParagraph Demo.empty_format [])
      = Ok p' /\
    runs p' = [] ++ runs_expected (E := Demo.env) (lines Demo.paragraph).
Proof.
  assert (Hdup : NoDup (map line_id (lines Demo.paragraph))).
  { apply (bool_decide_unpack _). vm_compute. exact I. }
  split; [exact Hdup|].
  destruct (C7_line_breaks (E := Demo.env) Demo.paragraph
              (mkParagraph Demo.empty_format []) Hdup) as (_ & p' & Hok & Hruns).
  exists p'. split; [exact Hok|exact Hruns].
Defined.

(** [repeated_line]: the line at position 0 is not at the last position and
    its successor lies in another row, yet it compares equal to
    [self.lines[-1]] at line 341 and no break follows it; the only break is
    the one after the second line. *)
Lemma C7_counterexample :
  lines Samples.repeated_line !! 0%nat = Some (Demo.text_line 0 0 0 50 10) /\
  0%nat <> (length (lines Samples.repeated_line) - 1)%nat /\
  lines Samples.repeated_line !! (0 + 1)%nat = Some (Demo.text_line 1 0 20 50 30) /\
  in_same_row (Env := Demo.env) (Demo.text_line 0 0 0 50 10)
    (Some (Demo.text_line 1 0 20 50 30)) = false /\
  line_break (E := Demo.env) Samples.repeated_line 0 (Demo.text_line 0 0 0 50 10)
  = Ok false /\
  exists p',
    make_docx (E := Demo.env) Samples.repeated_line (mkParagraph Demo.empty_format [])
    = Ok p' /\
    runs p' =
      [SpanRun (TextSpan (mkBBox 0 0 50 10) "text" []);
       SpanRun (TextSpan (mkBBox 0 20 50 30) "text" []);
       TextRun newline;
       SpanRun (TextSpan (mkBBox 0 0 50 10) "text" [])].
Proof.
  split; [reflexivity|]. split; [cbn; lia|]. split; [reflexivity|].
  split; [vm_compute; reflexivity|]. split; [vm_compute; reflexivity|].
  eexists. split; vm_compute; reflexivity.
Qed.

(** A block of height zero with a single line. *)
Lemma C8_no_exception_witness :
  lines Demo.flat_block <> [] /\
  returns (set_alignment (E := Demo.env) Demo.flat_block Demo.page) /\
  returns (parse_line_spacing (E := Demo.env) Demo.flat_block).
Proof.
  assert (Hne : lines Demo.flat_block <> []) by discriminate.
  split; [exact Hne|].
  apply (C8_no_exception (E := Demo.env) Demo.flat_block Demo.page same_row_None Hne).
Defined.

(** The block [TextBlock()] builds has no lines: both methods raise. *)
Lemma C8_counterexample :
  set_alignment (E := Demo.env) Demo.empty_block Demo.page = Raise ValueError /\
  parse_line_spacing (E := Demo.env) Demo.empty_block = Raise IndexError.
Proof. split; reflexivity. Qed.

(** An attributed rectangle over [paragraph] and an undecided one far from
    it. *)
Lemma C9_passed_over_shapes_witness :
  Forall (passed_over (E := Demo.env) Demo.paragraph)
         [Demo.decided_rect; Demo.remote_rect] /\
  parse_text_format (E := Demo.env) Demo.paragraph
    [Demo.decided_rect; Demo.remote_rect]
  = (Demo.paragraph, [Demo.decided_rect; Demo.remote_rect], false).
Proof.
  assert (Hall : Forall (passed_over (E := Demo.env) Demo.paragraph)
                        [Demo.decided_rect; Demo.remote_rect]).
  { constructor; [left; reflexivity|].
    constructor; [right; reflexivity|]. constructor. }
  split; [exact Hall|].
  apply (C9_passed_over_shapes (E := Demo.env) Demo.paragraph _ [] [] Hall).
Defined.

(** An undecided rectangle over the first line does change the spans. *)
Example parse_text_format_highlight :
  snd (parse_text_format (E := Demo.env) Demo.paragraph [Demo.highlight_rect]) = true.
Proof. vm_compute. reflexivity. Qed.

Lemma C10_init_pops_bbox_witness :
  is_Some (Demo.raw_block !! "bbox"%string) /\
  fst (TextBlock_init (E := Demo.env) Demo.raw_block) !! "bbox"%string = None /\
  fst (TextBlock_init (E := Demo.env) Demo.raw_block) <> Demo.raw_block.
Proof.
  assert (Hsome : is_Some (Demo.raw_block !! "bbox"%string)).
  { eexists. vm_compute. reflexivity. }
  split; [exact Hsome|].
  destruct (C10_init_pops_bbox (E := Demo.env) Demo.raw_block Hsome)
    as (_ & Hnone & Hne).
  split; [exact Hnone|exact Hne].
Defined.

(** ** Further properties: [text_direction] *)

Lemma remove_dups_uniform {A : Type} `{EqDecision A} (d : A) (l : list A) :
  l <> [] -> (forall x, x ∈ l -> x = d) -> remove_dups l = [d].
Proof.
  induction l as [|x rest IH]; intros Hne Hall; [congruence|].
  assert (x = d) as -> by (apply Hall, list_elem_of_here).
  cbn [remove_dups]. destruct rest as [|y rest'].
  - destruct (decide_rel elem_of d []) as [Hin|_]; [|reflexivity].
    apply not_elem_of_nil in Hin. contradiction.
  - assert (Hrest : forall z, z ∈ y :: rest' -> z = d).
    { intros z Hz. apply Hall, list_elem_of_further, Hz. }
    assert (y = d) as -> by (apply Hrest, list_elem_of_here).
    destruct (decide_rel elem_of d (d :: rest')) as [_|Hout].
    + apply IH; [discriminate|exact Hrest].
    + exfalso. apply Hout, list_elem_of_here.
Qed.

Lemma elem_of_directions (self : TextBlock) (d : TextDirection) :
  d ∈ map line_text_direction (lines self) <->
  exists line, line ∈ lines self /\ line_text_direction line = d.
Proof.
  change (map line_text_direction (lines self))
    with (line_text_direction <$> lines self).
  rewrite list_elem_of_fmap. split.
  - intros (line & -> & Hin). exists line. split; [exact Hin|reflexivity].
  - intros (line & Hin & <-). exists line. split; [reflexivity|exact Hin].
Qed.

(** X1.  The direction of a block is IGNORE exactly when one of its lines
    is. *)
Theorem X1_text_direction_ignore (self : TextBlock) :
  text_direction self = IGNORE <->
  exists line, line ∈ lines self /\ line_text_direction line = IGNORE.
Proof.
  rewrite <- elem_of_directions. unfold text_direction.
  rewrite <- (elem_of_remove_dups (map line_text_direction (lines self))).
  set (res := remove_dups (map line_text_direction (lines self))).
  destruct (bool_decide (IGNORE ∈ res)) eqn:Hdec.
  - apply bool_decide_eq_true in Hdec. split; [intros _; exact Hdec|reflexivity].
  - apply bool_decide_eq_false in Hdec. split; [|contradiction].
    intros Hres. destruct res as [|d [|d' rest]]; try discriminate.
    subst d. exfalso. apply Hdec, list_elem_of_here.
Qed.

(** X2.  The direction of a block is BOTTOM_TOP exactly when the block has
    a line and every line is BOTTOM_TOP: mixed directions and the block
    without lines fall back to LEFT_RIGHT. *)
Theorem X2_text_direction_vertical (self : TextBlock) :
  text_direction self = BOTTOM_TOP <->
  lines self <> [] /\
  forall line, line ∈ lines self -> line_text_direction line = BOTTOM_TOP.
Proof.
  split.
  - unfold text_direction.
    pose proof (elem_of_remove_dups (map line_text_direction (lines self))) as Hdups.
    set (res := remove_dups (map line_text_direction (lines self))) in *.
    destruct (bool_decide (IGNORE ∈ res)); [discriminate|].
    destruct res as [|d [|d' rest]] eqn:Hres; try discriminate.
    intros ->. split.
    + intros Hnil. rewrite Hnil in Hdups.
      apply (not_elem_of_nil BOTTOM_TOP), Hdups, list_elem_of_here.
    + intros line Hline.
      assert (Hin : line_text_direction line ∈ [BOTTOM_TOP]).
      { apply Hdups, elem_of_directions. exists line. split; [exact Hline|reflexivity]. }
      apply list_elem_of_singleton in Hin. exact Hin.
  - intros [Hne Hall]. unfold text_direction.
    rewrite (remove_dups_uniform BOTTOM_TOP).
    + rewrite bool_decide_eq_false_2; [reflexivity|].
      intros Hin. apply list_elem_of_singleton in Hin. discriminate.
    + destruct (lines self); [congruence|discriminate].
    + intros d Hd. apply elem_of_directions in Hd as (line & Hline & <-).
      apply Hall, Hline.
Qed.

(** ** Further properties: [set_alignment] *)

Lemma centres_of_edges (f0 f1 : Line -> Q) (ls : list Line) :
  map (fun p => (fst p + snd p) / 2) (zip (map f0 ls) (map f1 ls))
  = map (fun line => (f0 line + f1 line) / 2) ls.
Proof.
  induction ls as [|line rest IH]; [reflexivity|].
  cbn [map zip_with fst snd]. f_equal. exact IH.
Qed.

Section SetAlignmentBranches.

Context {E : Env}.

(** The three tests and the two margins of [set_alignment] on a block with
    lines, and the cascade that follows them. *)
Lemma set_alignment_cascade (self : TextBlock) (page : BBox) :
  lines self <> [] ->
  exists (left_aligned right_aligned center_aligned : bool) (d_left d_right : Q),
    (left_aligned = true <->
     lines_within_DM self (fun line => leading_edge self (line_bbox line))) /\
    (right_aligned = true <->
     lines_within_DM self (fun line => trailing_edge self (line_bbox line))) /\
    (center_aligned = true <->
     lines_within_DM self (fun line => centre self (line_bbox line))) /\
    d_left == leading_margin self page /\
    d_right == trailing_margin self page /\
    set_alignment self page =
    Ok (if left_aligned && negb right_aligned then set_alignment_left self d_left
        else if right_aligned && negb left_aligned then set_alignment_right self d_right
        else if center_aligned && negb left_aligned && negb right_aligned
             then set_alignment_center self
        else if Qltb (Qabs ((d_left - d_right) / 2)) DM then set_alignment_center self
        else if Qleb (Qabs d_left) (Qabs d_right) then set_alignment_left self d_left
        else set_alignment_right self d_right).
Proof.
  intros Hne. destruct (lines self) as [|line0 rest] eqn:Hlines; [congruence|].
  unfold set_alignment, lines_within_DM, centre, leading_edge, trailing_edge,
    leading_margin, trailing_margin.
  destruct (is_horizontal_text self); rewrite centres_of_edges, Hlines.
  - destruct (within_DM_lines (fun line => item (line_bbox line) 0%nat) line0 rest)
      as (b0 & Hb0 & Hiff0).
    destruct (within_DM_lines (fun line => item (line_bbox line) 2%nat) line0 rest)
      as (b1 & Hb1 & Hiff1).
    destruct (within_DM_lines
                (fun line => (item (line_bbox line) 0%nat
                              + item (line_bbox line) 2%nat) / 2) line0 rest)
      as (b2 & Hb2 & Hiff2).
    rewrite Hb0, Hb1, Hb2. cbn [bind].
    exists b0, b1, b2, ((item (bbox self) 0 - item page 0) * 1),
      ((item page 2 - item (bbox self) 2) * 1).
    split; [exact Hiff0|]. split; [exact Hiff1|]. split; [exact Hiff2|].
    split; [cbn [item]; ring|]. split; [cbn [item]; ring|].
    repeat match goal with
           | |- context [if ?c then _ else _] => destruct c
           end; reflexivity.
  - destruct (within_DM_lines (fun line => item (line_bbox line) 3%nat) line0 rest)
      as (b0 & Hb0 & Hiff0).
    destruct (within_DM_lines (fun line => item (line_bbox line) 1%nat) line0 rest)
      as (b1 & Hb1 & Hiff1).
    destruct (within_DM_lines
                (fun line => (item (line_bbox line) 3%nat
                              + item (line_bbox line) 1%nat) / 2) line0 rest)
      as (b2 & Hb2 & Hiff2).
    rewrite Hb0, Hb1, Hb2. cbn [bind].
    exists b0, b1, b2, ((item (bbox self) 3 - item page 3) * -(1)),
      ((item page 1 - item (bbox self) 1) * -(1)).
    split; [exact Hiff0|]. split; [exact Hiff1|]. split; [exact Hiff2|].
    split; [cbn [item]; ring|]. split; [cbn [item]; ring|].
    repeat match goal with
           | |- context [if ?c then _ else _] => destruct c
           end; reflexivity.
Qed.

End SetAlignmentBranches.

Section SetAlignmentRules.

Context {E : Env}.

(** X6.  Whatever branch [set_alignment] takes, it leaves the bbox, the
    lines and the vertical spacings alone, and it touches one space at
    most: LEFT sets [left_space] to the leading margin and keeps
    [right_space], RIGHT sets [right_space] to the trailing margin and keeps
    [left_space], CENTER keeps both. *)
Theorem X6_set_alignment_frame (self self' : TextBlock) (page : BBox) :
  set_alignment self page = Ok self' ->
  bbox self' = bbox self /\ lines self' = lines self /\
  before_space self' = before_space self /\
  after_space self' = after_space self /\
  line_space self' = line_space self /\
  match alignment self' with
  | LEFT =>
      left_space self' == leading_margin self page /\
      right_space self' = right_space self
  | RIGHT =>
      right_space self' == trailing_margin self page /\
      left_space self' = left_space self
  | CENTER =>
      left_space self' = left_space self /\ right_space self' = right_space self
  end.
Proof.
  intros Hret.
  assert (Hne : lines self <> []).
  { intros Hnil. rewrite (set_alignment_no_lines self page Hnil) in Hret.
    discriminate. }
  destruct (set_alignment_cascade self page Hne)
    as (la & ra & ca & dl & dr & _ & _ & _ & Hdl & Hdr & Hok).
  rewrite Hok in Hret.
  repeat match type of Hret with
         | context [if ?c then _ else _] => destruct c
         end;
    injection Hret as <-; cbn; repeat split; assumption.
Qed.

End SetAlignmentRules.

Lemma X6_set_alignment_frame_witness :
  lines (set_alignment_left Demo.paragraph ((10 - 0) * 1)) = lines Demo.paragraph /\
  right_space (set_alignment_left Demo.paragraph ((10 - 0) * 1)) = 0.
Proof.
  destruct (X6_set_alignment_frame (E := Demo.env) Demo.paragraph
              (set_alignment_left Demo.paragraph ((10 - 0) * 1)) Demo.page)
    as (_ & Hlines & _ & _ & _ & Halign).
  - vm_compute. reflexivity.
  - split; [exact Hlines|]. cbn [alignment set_alignment_left] in Halign.
    destruct Halign as [_ Hright]. exact Hright.
Defined.

(** ** Further properties: [contains_discrete_lines] *)

Lemma filter_length_impl {A : Type} (P R : A -> Prop)
    `{forall x, Decision (P x)} `{forall x, Decision (R x)} (l : list A) :
  (forall x, P x -> R x) -> (length (filter P l) <= length (filter R l))%nat.
Proof.
  intros Himpl. induction l as [|x rest IH]; [reflexivity|].
  rewrite !filter_cons.
  destruct (decide (P x)) as [HP|HP]; destruct (decide (R x)) as [HR|HR];
    cbn [length]; try lia.
  exfalso. apply HR, Himpl, HP.
Qed.

Section DiscreteLinesRules.

Context {E : Env}.

Lemma gap_count_nonneg (distance : Q) (ls : list Line) : (0 <= gap_count distance ls)%Z.
Proof. unfold gap_count. lia. Qed.

(** A shorter distance lets at least as many gaps count. *)
Lemma gap_count_mono (d d' : Q) (ls : list Line) :
  d' <= d -> (gap_count d ls <= gap_count d' ls)%Z.
Proof.
  intros Hle. unfold gap_count. apply inj_le, filter_length_impl.
  intros p. unfold wide_gap. rewrite !andb_true_iff, !Qltb_true.
  intros [Hrow Hgap]. split; [exact Hrow|lra].
Qed.

(** X7.  [contains_discrete_lines] never raises, and it answers discrete
    exactly when the block does not have exactly one line and one of these
    holds: it has an image span; its text is vertical; some consecutive
    pair of lines is horizontally aligned but not in the same row; the
    counter, which starts at 1 and gains one for every aligned pair of one
    row more than [distance] apart, reaches [threshold]. *)
Theorem X7_discrete_contract (self : TextBlock) (distance : Q) (threshold : Z) :
  exists b,
    contains_discrete_lines self distance threshold = Ok b /\
    (b = true <->
     length (lines self) <> 1%nat /\
     (image_spans (lines self) <> [] \/
      is_vertical_text self = true \/
      (exists p, p ∈ consecutive_pairs (lines self) /\ aligned_other_row p = true) \/
      (threshold <= 1 + gap_count distance (lines self))%Z)).
Proof.
  rewrite contains_discrete_lines_spec. eexists. split; [reflexivity|].
  destruct (Nat.eqb_spec (length (lines self)) 1) as [Hone|Hone].
  { split; [discriminate|]. intros [Hne _]. contradiction. }
  destruct (decide (image_spans (lines self) = [])) as [Himg|Himg].
  2:{ rewrite bool_decide_eq_false_2 by exact Himg. cbn [negb].
      split; [|reflexivity]. intros _. split; [exact Hone|]. left. exact Himg. }
  rewrite bool_decide_eq_true_2 by exact Himg. cbn [negb].
  destruct (is_vertical_text self).
  { split; [|reflexivity]. intros _. split; [exact Hone|]. right. left. reflexivity. }
  rewrite orb_true_iff, existsb_exists, Z.leb_le. split.
  - intros [(p & Hin & Hp)|Hcnt]; (split; [exact Hone|]).
    + right. right. left. exists p. split; [apply list_elem_of_In, Hin|exact Hp].
    + right. right. right. exact Hcnt.
  - intros [_ [Hi|[Hv|[(p & Hin & Hp)|Hcnt]]]].
    + contradiction.
    + discriminate.
    + left. exists p. split; [apply list_elem_of_In, Hin|exact Hp].
    + right. exact Hcnt.
Qed.

(** X8.  Discreteness is monotone in both parameters: a block that is
    discrete for some distance and threshold is still discrete for any
    distance and threshold that are not larger. *)
Theorem X8_discrete_monotone (self : TextBlock) (d d' : Q) (t t' : Z) :
  d' <= d -> (t' <= t)%Z ->
  contains_discrete_lines self d t = Ok true ->
  contains_discrete_lines self d' t' = Ok true.
Proof.
  intros Hd Ht. rewrite !contains_discrete_lines_spec.
  destruct (length (lines self) =? 1)%nat; [discriminate|].
  destruct (negb _); [reflexivity|].
  destruct (is_vertical_text self); [reflexivity|].
  destruct (existsb _ _); [reflexivity|]. cbn [orb].
  intros Hcnt. injection Hcnt as Hcnt. apply Z.leb_le in Hcnt.
  pose proof (gap_count_mono d d' (lines self) Hd).
  f_equal. apply Z.leb_le. lia.
Qed.

(** X9.  A block of horizontal text without images in which no line is
    horizontally aligned with the next one, as in a paragraph whose rows do
    not overlap, is not discrete for any threshold of 2 or more. *)
Theorem X9_stacked_rows_not_discrete (self : TextBlock) (distance : Q)
    (threshold : Z) :
  (2 <= threshold)%Z ->
  is_vertical_text self = false ->
  image_spans (lines self) = [] ->
  Forall (fun p => horizontally_align_with (fst p) (snd p) = false)
         (consecutive_pairs (lines self)) ->
  contains_discrete_lines self distance threshold = Ok false.
Proof.
  intros Ht Hvert Himg Hfree.
  rewrite contains_discrete_lines_spec, Hvert, Himg.
  rewrite bool_decide_eq_true_2 by reflexivity. cbn [negb].
  destruct (length (lines self) =? 1)%nat; [reflexivity|].
  assert (Hgaps : gap_count distance (lines self) = 0%Z).
  { unfold gap_count. induction Hfree as [|p rest Hp _ IH]; [reflexivity|].
    assert (Hw : wide_gap distance p = false) by (unfold wide_gap; rewrite Hp; reflexivity).
    rewrite filter_cons, decide_False by (rewrite Hw; discriminate). exact IH. }
  assert (Hother : existsb aligned_other_row (consecutive_pairs (lines self)) = false).
  { induction Hfree as [|p rest Hp _ IH]; [reflexivity|].
    cbn [existsb]. unfold aligned_other_row at 1. rewrite Hp, IH. reflexivity. }
  rewrite Hother, Hgaps. cbn [orb]. f_equal. apply Z.leb_gt. lia.
Qed.

(** X10.  The counter starts at 1: with a threshold of 1 or less every
    block is discrete, the block without lines included, except the block
    of exactly one line. *)
Theorem X10_low_threshold (self : TextBlock) (distance : Q) (threshold : Z) :
  (threshold <= 1)%Z ->
  length (lines self) <> 1%nat ->
  contains_discrete_lines self distance threshold = Ok true.
Proof.
  intros Ht Hlen. rewrite contains_discrete_lines_spec.
  destruct (Nat.eqb_spec (length (lines self)) 1) as [Hone|_]; [contradiction|].
  destruct (negb _); [reflexivity|].
  destruct (is_vertical_text self); [reflexivity|].
  pose proof (gap_count_nonneg distance (lines self)).
  f_equal. apply orb_true_iff. right. apply Z.leb_le. lia.
Qed.

End DiscreteLinesRules.

(** Three fragments 30 apart are discrete for distance 29.5 and threshold
    3, hence for the defaults of the source. *)
Lemma X8_discrete_monotone_witness :
  contains_discrete_lines (E := Demo.env) Demo.three_fragments (59 / 2) 3 = Ok true /\
  contains_discrete_lines (E := Demo.env) Demo.three_fragments 25 2 = Ok true.
Proof.
  assert (Hwide : contains_discrete_lines (E := Demo.env) Demo.three_fragments
                    (59 / 2) 3 = Ok true) by (vm_compute; reflexivity).
  split; [exact Hwide|].
  apply (X8_discrete_monotone (E := Demo.env) Demo.three_fragments
           (59 / 2) 25 3 2); [vm_compute; discriminate|lia|exact Hwide].
Defined.

(** The rows of [paragraph] touch without overlapping. *)
Lemma X9_stacked_rows_not_discrete_witness :
  contains_discrete_lines (E := Demo.env) Demo.paragraph 25 2 = Ok false.
Proof.
  apply (X9_stacked_rows_not_discrete (E := Demo.env) Demo.paragraph 25 2).
  - lia.
  - reflexivity.
  - reflexivity.
  - constructor; [vm_compute; reflexivity|].
    constructor; [vm_compute; reflexivity|]. constructor.
Defined.

(** The block without lines, with threshold 1. *)
Lemma X10_low_threshold_witness :
  contains_discrete_lines (E := Demo.env) Demo.empty_block 25 1 = Ok true.
Proof.
  apply (X10_low_threshold (E := Demo.env) Demo.empty_block 25 1); [lia|].
  discriminate.
Defined.

(** ** Further properties: [parse_text_format] *)

Lemma reset_spans_same (line : Line) : reset_spans line (spans line) = line.
Proof. destruct line. reflexivity. Qed.

Section ParseTextFormatRules.

Context {E : Env}.

(** A scan that reports no split has met no text span. *)
Lemma split_line_spans_false (horizontal : bool) (ss : list Span) :
  forall rect flag out rect',
    split_line_spans horizontal ss rect flag = (out, rect', false) ->
    flag = false /\ out = ss /\ rect' = rect.
Proof.
  induction ss as [|span rest IH]; intros rect flag out rect' Hrun;
    cbn [split_line_spans] in Hrun.
  - injection Hrun as <- <- <-. repeat split.
  - destruct (is_ImageSpan span).
    + destruct (split_line_spans horizontal rest rect flag)
        as [[out0 rect0] flag0] eqn:Hrest.
      injection Hrun as <- <- ->.
      destruct (IH _ _ _ _ Hrest) as (-> & -> & ->). repeat split.
    + destruct (split span rect horizontal) as [sub rect1].
      destruct (split_line_spans horizontal rest rect1 true)
        as [[out0 rect0] flag0] eqn:Hrest.
      injection Hrun as <- <- ->.
      destruct (IH _ _ _ _ Hrest) as (Habs & _). discriminate.
Qed.

Lemma split_lines_false (ls : list Line) :
  forall rect flag out rect',
    split_lines ls rect flag = (out, rect', false) ->
    flag = false /\ out = ls /\ rect' = rect.
Proof.
  induction ls as [|line rest IH]; intros rect flag out rect' Hrun;
    cbn [split_lines] in Hrun.
  - injection Hrun as <- <- <-. repeat split.
  - destruct (negb (intersection _ _)).
    + destruct (Qltb _ _).
      * injection Hrun as <- <- <-. repeat split.
      * destruct (split_lines rest rect flag) as [[out0 rect0] flag0] eqn:Hrest.
        injection Hrun as <- <- ->.
        destruct (IH _ _ _ _ Hrest) as (-> & -> & ->). repeat split.
    + destruct (split_line_spans _ (spans line) rect flag)
        as [[ss rect1] flag1] eqn:Hspans.
      destruct (split_lines rest rect1 flag1) as [[out0 rect0] flag0] eqn:Hrest.
      injection Hrun as <- <- ->.
      destruct (IH _ _ _ _ Hrest) as (-> & -> & ->).
      destruct (split_line_spans_false _ _ _ _ _ _ Hspans) as (-> & -> & ->).
      rewrite reset_spans_same. repeat split.
Qed.

Lemma set_lines_same (self : TextBlock) : set_lines self (lines self) = self.
Proof. destruct self. reflexivity. Qed.

Lemma parse_text_format_rect_false (self self' : TextBlock) (rect rect' : Shape)
    (flag : bool) :
  parse_text_format_rect self rect flag = (self', rect', false) ->
  flag = false /\ self' = self /\ rect' = rect.
Proof.
  unfold parse_text_format_rect. intros Hrun.
  destruct (negb (is_UNDEFINED _)); [injection Hrun as <- <- <-; repeat split|].
  destruct (negb (intersects _ _)); [injection Hrun as <- <- <-; repeat split|].
  destruct (split_lines (lines self) rect flag) as [[ls rect0] flag0] eqn:Hlines.
  injection Hrun as <- <- ->.
  destruct (split_lines_false _ _ _ _ _ Hlines) as (-> & -> & ->).
  rewrite set_lines_same. repeat split.
Qed.

Lemma parse_text_format_loop_false (rects : list Shape) :
  forall self flag self' rects',
    parse_text_format_loop self rects flag = (self', rects', false) ->
    flag = false /\ self' = self /\ rects' = rects.
Proof.
  induction rects as [|rect rest IH]; intros self flag self' rects' Hrun;
    cbn [parse_text_format_loop] in Hrun.
  - injection Hrun as <- <- <-. repeat split.
  - destruct (parse_text_format_rect self rect flag)
      as [[self1 rect1] flag1] eqn:Hrect.
    destruct (parse_text_format_loop self1 rest flag1)
      as [[self2 out] flag2] eqn:Hrest.
    injection Hrun as <- <- ->.
    destruct (IH _ _ _ _ Hrest) as (-> & -> & ->).
    destruct (parse_text_format_rect_false _ _ _ _ _ Hrect) as (-> & -> & ->).
    repeat split.
Qed.

(** X11.  When [parse_text_format] returns False, nothing has changed:
    the block and the shapes are as they were before the call. *)
Theorem X11_no_split_no_change (self self' : TextBlock) (rects rects' : list Shape) :
  parse_text_format self rects = (self', rects', false) ->
  self' = self /\ rects' = rects.
Proof.
  unfold parse_text_format. intros Hrun.
  destruct (parse_text_format_loop_false _ _ _ _ _ Hrun) as (_ & Hself & Hrects).
  split; assumption.
Qed.

End ParseTextFormatRules.

Lemma X11_no_split_no_change_witness :
  fst (fst (parse_text_format (E := Demo.env) Demo.paragraph [Demo.remote_rect]))
  = Demo.paragraph.
Proof.
  destruct (X11_no_split_no_change (E := Demo.env) Demo.paragraph
              (fst (fst (parse_text_format (E := Demo.env) Demo.paragraph
                           [Demo.remote_rect])))
              [Demo.remote_rect]
              (snd (fst (parse_text_format (E := Demo.env) Demo.paragraph
                           [Demo.remote_rect]))))
    as [Hself _].
  - vm_compute. reflexivity.
  - exact Hself.
Defined.

Lemma images_app (ss ss' : list Span) : images (ss ++ ss') = images ss ++ images ss'.
Proof. unfold images. apply filter_app. Qed.

#[local] Instance same_line_refl : Reflexive same_line.
Proof. intros l. repeat split. Qed.

#[local] Instance same_line_trans : Transitive same_line.
Proof.
  intros a b c (Hid & Hbox & Hdir) (Hid' & Hbox' & Hdir').
  repeat split; congruence.
Qed.

#[local] Instance images_kept_refl : Reflexive images_kept.
Proof. intros l. unfold images_kept. reflexivity. Qed.

#[local] Instance images_kept_trans : Transitive images_kept.
Proof. intros a b c Hab Hbc. unfold images_kept in *. etransitivity; eassumption. Qed.

Section ParseTextFormatFrame.

Context {E : Env}.

Lemma split_line_spans_images (horizontal : bool) (ss : list Span) :
  forall rect flag,
    images ss `sublist_of`
    images (fst (fst (split_line_spans horizontal ss rect flag))).
Proof.
  induction ss as [|span rest IH]; intros rect flag; cbn [split_line_spans].
  - reflexivity.
  - destruct (is_ImageSpan span) eqn:Himg.
    + specialize (IH rect flag).
      destruct (split_line_spans horizontal rest rect flag) as [[out rect'] flag'].
      cbn [fst] in *. unfold images in *. rewrite !filter_cons.
      rewrite !decide_True by exact Himg. apply sublist_skip. exact IH.
    + destruct (split span rect horizontal) as [sub rect1].
      specialize (IH rect1 true).
      destruct (split_line_spans horizontal rest rect1 true) as [[out rect'] flag'].
      cbn [fst] in *. rewrite images_app. apply sublist_inserts_l.
      unfold images at 1. rewrite filter_cons.
      rewrite decide_False by (rewrite Himg; discriminate). exact IH.
Qed.

Lemma split_lines_kept (ls : list Line) :
  forall rect flag,
    Forall2 same_line ls (fst (fst (split_lines ls rect flag))) /\
    Forall2 images_kept ls (fst (fst (split_lines ls rect flag))).
Proof.
  induction ls as [|line rest IH]; intros rect flag; cbn [split_lines].
  - split; constructor.
  - destruct (negb (intersection _ _)).
    + destruct (Qltb _ _).
      * cbn [fst]. split; reflexivity.
      * specialize (IH rect flag).
        destruct (split_lines rest rect flag) as [[out rect'] flag'].
        cbn [fst] in *. destruct IH as [Hsame Himg].
        split; constructor; try assumption; reflexivity.
    + pose proof (split_line_spans_images (line_is_horizontal_text line)
                    (spans line) rect flag) as Hspans.
      destruct (split_line_spans _ (spans line) rect flag) as [[ss rect1] flag1].
      specialize (IH rect1 flag1).
      destruct (split_lines rest rect1 flag1) as [[out rect'] flag'].
      cbn [fst] in *. destruct IH as [Hsame Himg].
      split; constructor; try assumption. repeat split.
Qed.

(** What one turn of the loop keeps. *)
Lemma parse_text_format_rect_kept (self : TextBlock) (rect : Shape) (flag : bool) :
  let self' := fst (fst (parse_text_format_rect self rect flag)) in
  Forall2 same_line (lines self) (lines self') /\
  Forall2 images_kept (lines self) (lines self') /\
  set_lines self' (lines self) = self.
Proof.
  unfold parse_text_format_rect.
  destruct (negb (is_UNDEFINED _));
    [cbn [fst]; rewrite set_lines_same; repeat split; reflexivity|].
  destruct (negb (intersects _ _));
    [cbn [fst]; rewrite set_lines_same; repeat split; reflexivity|].
  destruct (split_lines_kept (lines self) rect flag) as [Hsame Himg].
  destruct (split_lines (lines self) rect flag) as [[ls rect'] flag'].
  cbn [fst] in *. split; [exact Hsame|]. split; [exact Himg|].
  destruct self. reflexivity.
Qed.

Lemma parse_text_format_loop_kept (rects : list Shape) :
  forall self flag,
    let result := parse_text_format_loop self rects flag in
    Forall2 same_line (lines self) (lines (fst (fst result))) /\
    Forall2 images_kept (lines self) (lines (fst (fst result))) /\
    set_lines (fst (fst result)) (lines self) = self /\
    length (snd (fst result)) = length rects.
Proof.
  induction rects as [|rect rest IH]; intros self flag; cbn zeta;
    cbn [parse_text_format_loop].
  - cbn [fst snd]. rewrite set_lines_same. repeat split; reflexivity.
  - pose proof (parse_text_format_rect_kept self rect flag) as Hrect.
    cbn zeta in Hrect.
    destruct (parse_text_format_rect self rect flag) as [[self1 rect1] flag1].
    specialize (IH self1 flag1). cbn zeta in IH.
    destruct (parse_text_format_loop self1 rest flag1) as [[self2 out] flag2].
    cbn [fst snd] in *.
    destruct Hrect as (Hsame & Himg & Hset).
    destruct IH as (Hsame' & Himg' & Hset' & Hlen).
    split; [etransitivity; eassumption|].
    split; [etransitivity; eassumption|].
    split; [|cbn [length]; rewrite Hlen; reflexivity].
    rewrite <- Hset, <- Hset'. destruct self2. reflexivity.
Qed.

(** X12.  [parse_text_format] changes nothing but spans: the block comes
    back with the same bbox, alignment and spacings and, line by line, the
    same line objects with the same bbox and direction; and as many shapes
    come back as went in. *)
Theorem X12_only_spans_change (self : TextBlock) (rects : list Shape) :
  let result := parse_text_format self rects in
  let self' := fst (fst result) in
  Forall2 same_line (lines self) (lines self') /\
  set_lines self' (lines self) = self /\
  length (snd (fst result)) = length rects.
Proof.
  cbv zeta. unfold parse_text_format.
  destruct (parse_text_format_loop_kept rects self false)
    as (Hsame & _ & Hset & Hlen).
  split; [exact Hsame|]. split; [exact Hset|exact Hlen].
Qed.

(** X13.  Image spans are never split nor dropped: whatever the shapes, the
    image spans of each line are still in that line after the call, in the
    same order. *)
Theorem X13_images_kept (self : TextBlock) (rects : list Shape) :
  Forall2 images_kept (lines self)
          (lines (fst (fst (parse_text_format self rects)))).
Proof.
  unfold parse_text_format.
  destruct (parse_text_format_loop_kept rects self false) as (_ & Himg & _).
  exact Himg.
Qed.

End ParseTextFormatFrame.

Section ParseTextFormatBreak.

Context {E : Env}.

(** [span.split] leaves the bbox of the rectangle alone. *)
Hypothesis split_keeps_bbox :
  forall span rect horizontal,
    rect_bbox (snd (split span rect horizontal)) = rect_bbox rect.




End ParseTextFormatBreak.


(** ** Further properties: [parse_line_spacing] *)

Section ParseLineSpacingRules.

Context {E : Env}.

(** X16.  [parse_line_spacing] writes [line_space] and [before_space] and
    nothing else: the bbox, the lines, the alignment, both side spaces and
    the space after come back as they were. *)
Theorem X16_line_spacing_frame (self self' : TextBlock) :
  parse_line_spacing self = Ok self' ->
  bbox self' = bbox self /\ lines self' = lines self /\
  alignment self' = alignment self /\
  left_space self' = left_space self /\ right_space self' = right_space self /\
  after_space self' = after_space self.
Proof.
  unfold parse_line_spacing, average_line_spacing.
  destruct (getitem (lines self) 0) as [line0|e]; [|discriminate].
  cbn [bind].
  destruct (1 <? count_rows None 0 (lines self))%Z.
  - destruct (py_div _ (count_rows None 0 (lines self) - 1)) as [ls|e];
      [|discriminate].
    cbn [bind fst snd]. unfold clamp_before_space.
    destruct (Qltb _ 0).
    + destruct (py_div _ (count_rows None 0 (lines self))) as [d|e];
        [|discriminate].
      cbn [bind]. intros Hret. injection Hret as <-. repeat split.
    + intros Hret. injection Hret as <-. repeat split.
  - cbn [bind fst snd]. unfold clamp_before_space.
    destruct (Qltb _ 0).
    + destruct (py_div _ (count_rows None 0 (lines self))) as [d|e];
        [|discriminate].
      cbn [bind]. intros Hret. injection Hret as <-. repeat split.
    + intros Hret. injection Hret as <-. repeat split.
Qed.

End ParseLineSpacingRules.

Lemma X16_line_spacing_frame_witness :
  exists self',
    parse_line_spacing (E := Demo.env) Demo.paragraph = Ok self' /\
    lines self' = lines Demo.paragraph /\ alignment self' = LEFT.
Proof.
  eexists. split; [vm_compute; reflexivity|].
  match goal with
  | |- lines ?b = _ /\ _ =>
      destruct (X16_line_spacing_frame (E := Demo.env) Demo.paragraph b
                  ltac:(vm_compute; reflexivity))
        as (_ & Hlines & Halign & _)
  end.
  split; [exact Hlines|exact Halign].
Defined.

(** ** Further properties: [make_docx] *)

Lemma span_runs_app (rs rs' : list Run) :
  span_runs (rs ++ rs') = span_runs rs ++ span_runs rs'.
Proof. unfold span_runs. apply omap_app. Qed.

Lemma span_runs_spans (ss : list Span) : span_runs (map SpanRun ss) = ss.
Proof.
  induction ss as [|span rest IH]; [reflexivity|].
  cbn. unfold span_runs in IH. rewrite IH. reflexivity.
Qed.

Lemma break_count_app (rs rs' : list Run) :
  break_count (rs ++ rs') = (break_count rs + break_count rs')%Z.
Proof. unfold break_count. rewrite filter_app, length_app. lia. Qed.

Lemma break_count_spans (ss : list Span) : break_count (map SpanRun ss) = 0%Z.
Proof.
  induction ss as [|span rest IH]; [reflexivity|].
  unfold break_count in *. cbn [map]. rewrite filter_cons.
  rewrite decide_False by discriminate. exact IH.
Qed.

Section MakeDocxRules.

Context {E : Env}.

(** The line after a line that is not the last one is always there: the
    decision of lines 338-345 never raises on a line of the block. *)
Lemma line_break_returns (self : TextBlock) (i : nat) (line : Line) :
  lines self !! i = Some line -> exists br, line_break self i line = Ok br.
Proof.
  intros Hi. unfold line_break, getlast.
  pose proof (lookup_lt_Some _ _ _ Hi) as Hlt.
  rewrite last_lookup.
  destruct (lookup_lt_is_Some_2 (lines self) (pred (length (lines self)))
              ltac:(lia)) as [last_line Hlast].
  rewrite Hlast. cbn [bind].
  destruct (line_eq line last_line) eqn:Heq; [eexists; reflexivity|].
  assert (Hpos : i <> pred (length (lines self))).
  { intros ->. rewrite Hlast in Hi. injection Hi as ->.
    unfold line_eq in Heq. rewrite Nat.eqb_refl in Heq. discriminate. }
  destruct (lookup_lt_is_Some_2 (lines self) (i + 1) ltac:(lia))
    as [next_line Hnext].
  unfold getitem. rewrite Hnext. cbn [bind].
  destruct (in_same_row line (Some next_line)); eexists; reflexivity.
Qed.

Lemma make_docx_lines_spans (self : TextBlock) (suffix : list Line) :
  forall (k : nat) (rs : list Run),
    (forall j line, suffix !! j = Some line -> lines self !! (k + j)%nat = Some line) ->
    exists rs',
      make_docx_lines self (zip (seq k (length suffix)) suffix) rs = Ok rs' /\
      span_runs rs' = span_runs rs ++ flat_map spans suffix.
Proof.
  induction suffix as [|line rest IH]; intros k rs Hsuffix.
  - exists rs. split; [reflexivity|]. cbn. rewrite app_nil_r. reflexivity.
  - cbn [length seq zip_with make_docx_lines flat_map].
    rewrite foldl_span_make_docx.
    destruct (line_break_returns self k line) as [br Hbr].
    { specialize (Hsuffix 0%nat line eq_refl).
      rewrite Nat.add_0_r in Hsuffix. exact Hsuffix. }
    rewrite Hbr. cbn [bind].
    destruct (IH (S k) (if br then (rs ++ map SpanRun (spans line)) ++ [TextRun newline]
                        else rs ++ map SpanRun (spans line))) as (rs' & Hrun & Hspans).
    { intros j l Hj. specialize (Hsuffix (S j) l Hj).
      replace (S k + j)%nat with (k + S j)%nat by lia. exact Hsuffix. }
    exists rs'. split; [exact Hrun|]. rewrite Hspans.
    destruct br; rewrite !span_runs_app, span_runs_spans; cbn [span_runs omap];
      rewrite ?app_nil_r, <- ?app_assoc; reflexivity.
Qed.

(** X17.  [make_docx] never raises, on any block, and it loses no text: the
    spans behind the runs of the paragraph are afterwards those that were
    there before, followed by every span of every line of the block, once
    and in order. *)
Theorem X17_spans_emitted_in_order (self : TextBlock) (p : Paragraph) :
  exists p',
    make_docx self p = Ok p' /\
    span_runs (runs p') = span_runs (runs p) ++ flat_map spans (lines self).
Proof.
  unfold make_docx, enumerate.
  destruct (make_docx_lines_spans self (lines self) 0%nat (runs p)
              ltac:(intros j line Hj; exact Hj)) as (rs' & Hrun & Hspans).
  rewrite Hrun. cbn [bind]. eexists. split; [reflexivity|exact Hspans].
Qed.

(** The breaks among the runs expected from the [k]-th line on. *)
Lemma break_count_expected (ls suffix : list Line) :
  (forall a b, in_same_row a (Some b) = in_same_row b (Some a)) ->
  forall pre,
    ls = pre ++ suffix ->
    break_count
      (flat_map
         (fun il =>
            map SpanRun (spans (snd il))
            ++ (if break_expected ls (fst il) (snd il) then [TextRun newline] else []))
         (zip (seq (length pre) (length suffix)) suffix))
    = Z.of_nat (length (filter
                  (fun p => in_same_row (snd p) (Some (fst p)) = false)
                  (consecutive_pairs suffix))).
Proof.
  intros Hsym. induction suffix as [|a rest IH]; intros pre Hls; [reflexivity|].
  cbn [length seq zip_with flat_map fst snd].
  rewrite !break_count_app, break_count_spans.
  specialize (IH (pre ++ [a])). rewrite length_app in IH. cbn [length] in IH.
  replace (length pre + 1)%nat with (S (length pre)) in IH by lia.
  rewrite IH by (rewrite <- app_assoc; exact Hls).
  unfold break_expected. rewrite Hls.
  rewrite lookup_app_r by lia.
  replace (length pre + 1 - length pre)%nat with 1%nat by lia.
  destruct rest as [|b rest']; [reflexivity|].
  cbn [lookup list_lookup]. unfold consecutive_pairs.
  change (zip (a :: b :: rest') (tail (a :: b :: rest')))
    with ((a, b) :: zip (b :: rest') (tail (b :: rest'))).
  rewrite filter_cons. cbn [fst snd]. rewrite (Hsym b a).
  destruct (in_same_row a (Some b)) eqn:Hrow; cbn [negb].
  - rewrite decide_False by discriminate. reflexivity.
  - rewrite decide_True by reflexivity. cbn [length].
    change (break_count [TextRun newline]) with 1%Z. lia.
Qed.

(** X18.  The rows written are the rows counted: for a block with lines
    that are distinct objects, when the same-row test is symmetric and
    fails on [None], [make_docx] adds one line break less than the rows
    [parse_line_spacing] counts. *)
Theorem X18_breaks_match_rows (self : TextBlock) (p : Paragraph) :
  NoDup (map line_id (lines self)) ->
  (forall line, in_same_row line None = false) ->
  (forall a b, in_same_row a (Some b) = in_same_row b (Some a)) ->
  lines self <> [] ->
  exists p',
    make_docx self p = Ok p' /\
    break_count (runs p') =
    (break_count (runs p) + (count_rows None 0 (lines self) - 1))%Z.
Proof.
  intros Hdup Hnone Hsym Hne. rewrite (count_rows_row_count _ Hnone).
  unfold make_docx, enumerate.
  rewrite (make_docx_lines_spec self (lines self) Hdup 0%nat (runs p))
    by (intros j line Hj; exact Hj).
  cbn [bind]. eexists. split; [reflexivity|]. cbn [runs].
  rewrite break_count_app.
  pose proof (break_count_expected (lines self) (lines self) Hsym [] eq_refl)
    as Hcount.
  cbn [length] in Hcount. rewrite Hcount.
  destruct (lines self) as [|line0 rest]; [congruence|].
  unfold row_count. lia.
Qed.

End MakeDocxRules.

Lemma same_row_symmetric (a b : Line) :
  in_same_row (Env := Demo.env) a (Some b) = in_same_row (Env := Demo.env) b (Some a).
Proof.
  cbn [in_same_row Demo.env Demo.same_row].
  rewrite <- !andb_assoc. f_equal; [|apply andb_comm].
  destruct (decide (line_text_direction a = line_text_direction b)) as [Heq|Hne].
  - rewrite !bool_decide_eq_true_2 by congruence. reflexivity.
  - rewrite !bool_decide_eq_false_2 by congruence. reflexivity.
Qed.

(** [paragraph] has three rows: two line breaks. *)
Lemma X18_breaks_match_rows_witness :
  exists p',
    make_docx (E := Demo.env) Demo.paragraph (mkParagraph Demo.empty_format [])
      = Ok p' /\
    break_count (runs p') = 2%Z.
Proof.
  assert (Hdup : NoDup (map line_id (lines Demo.paragraph))).
  { apply (bool_decide_unpack _). vm_compute. exact I. }
  destruct (X18_breaks_match_rows (E := Demo.env) Demo.paragraph
              (mkParagraph Demo.empty_format []) Hdup same_row_None
              same_row_symmetric ltac:(discriminate)) as (p' & Hok & Hbreaks).
  exists p'. split; [exact Hok|]. rewrite Hbreaks. vm_compute. reflexivity.
Defined.

(** ** Further properties: the block without lines *)

Section NoLines.

Context {E : Env}.

(** X20.  On a block without lines, as [TextBlock()] builds it, the
    methods part ways: [set_alignment] raises [ValueError] and
    [parse_line_spacing] raises [IndexError], while the direction is
    LEFT_RIGHT, [contains_discrete_lines] answers by the text direction and
    the threshold alone, and [make_docx] returns the paragraph with the runs
    it had. *)
Theorem X20_block_without_lines (self : TextBlock) (page : BBox) (distance : Q)
    (threshold : Z) (p : Paragraph) :
  lines self = [] ->
  set_alignment self page = Raise ValueError /\
  parse_line_spacing self = Raise IndexError /\
  text_direction self = LEFT_RIGHT /\
  contains_discrete_lines self distance threshold
    = Ok (is_vertical_text self || (threshold <=? 1)%Z) /\
  exists p', make_docx self p = Ok p' /\ runs p' = runs p.
Proof.
  intros Hlines.
  split; [apply set_alignment_no_lines; exact Hlines|].
  split; [apply parse_line_spacing_no_lines; exact Hlines|].
  split; [unfold text_direction; rewrite Hlines; reflexivity|].
  split.
  - rewrite contains_discrete_lines_spec, Hlines.
    cbn [length Nat.eqb image_spans flat_map].
    rewrite bool_decide_eq_true_2 by reflexivity. cbn [negb].
    destruct (is_vertical_text self); reflexivity.
  - unfold make_docx, enumerate. rewrite Hlines. cbn [length seq zip_with make_docx_lines bind].
    eexists. split; reflexivity.
Qed.

End NoLines.

Lemma X20_block_without_lines_witness :
  set_alignment (E := Demo.env) Demo.empty_block Demo.page = Raise ValueError /\
  contains_discrete_lines (E := Demo.env) Demo.empty_block 25 2 = Ok false.
Proof.
  destruct (X20_block_without_lines (E := Demo.env) Demo.empty_block Demo.page 25 2
              (mkParagraph Demo.empty_format []) eq_refl)
    as (Halign & _ & _ & Hdiscrete & _).
  split; [exact Halign|exact Hdiscrete].
Defined.

(** ** Further properties: [text] *)

Lemma py_split_free (c : Ascii.ascii) (s : string) :
  free_of c s = true -> py_split c s = [s].
Proof.
  induction s as [|a s' IH]; [reflexivity|].
  cbn [free_of py_split]. intros Hfree.
  apply andb_true_iff in Hfree as [Ha Hs]. apply negb_true_iff in Ha.
  rewrite Ha, (IH Hs). reflexivity.
Qed.

Lemma py_split_append (c : Ascii.ascii) (s t : string) :
  free_of c s = true ->
  py_split c (String.append s (String c t)) = s :: py_split c t.
Proof.
  induction s as [|a s' IH]; simpl.
  - intros _. rewrite Ascii.eqb_refl. reflexivity.
  - intros Hfree. apply andb_true_iff in Hfree as [Ha Hs].
    apply negb_true_iff in Ha. rewrite Ha, (IH Hs). reflexivity.
Qed.

(** X21.  [text] puts each line on a line of its own: when the block has
    lines and no line text holds a newline, splitting the text of the block
    at the newlines gives back the texts of the lines, in order. *)
Theorem X21_text_lines (line_text : Line -> string) (self : TextBlock) :
  lines self <> [] ->
  (forall line, line ∈ lines self ->
                free_of (Ascii.ascii_of_nat 10) (line_text line) = true) ->
  py_split (Ascii.ascii_of_nat 10) (text line_text self)
  = map line_text (lines self).
Proof.
  unfold text. induction (lines self) as [|line rest IH]; intros Hne Hfree;
    [congruence|].
  cbn [map py_join].
  assert (Hline : free_of (Ascii.ascii_of_nat 10) (line_text line) = true)
    by (apply Hfree, list_elem_of_here).
  destruct rest as [|line' rest'].
  - apply py_split_free. exact Hline.
  - cbn [map]. change (String.append newline ?t)
      with (String (Ascii.ascii_of_nat 10) t).
    rewrite (py_split_append _ _ _ Hline). f_equal.
    apply IH; [discriminate|].
    intros l Hl. apply Hfree, list_elem_of_further, Hl.
Qed.

Lemma X21_text_lines_witness :
  py_split (Ascii.ascii_of_nat 10) (text Samples.sample_text Demo.paragraph)
  = ["Lorem ipsum"; "dolor sit"; "amet"]%string.
Proof.
  rewrite (X21_text_lines Samples.sample_text Demo.paragraph).
  - reflexivity.
  - discriminate.
  - intros line Hline. cbn [lines Demo.paragraph Demo.block] in Hline.
    members; reflexivity.
Defined.

(** ** Further properties: the number of lines a discrete block needs *)

Section DiscreteLinesBound.

Context {E : Env}.

Lemma gap_count_bound (distance : Q) (ls : list Line) :
  (gap_count distance ls <= Z.of_nat (length ls - 1))%Z.
Proof.
  unfold gap_count, consecutive_pairs. apply inj_le.
  etransitivity; [apply length_filter|].
  rewrite length_zip. destruct ls as [|line rest]; cbn [length tail]; lia.
Qed.

(** X22.  Gaps alone make a block discrete only if it has as many lines as
    the threshold: a block of horizontal text with at least one line and
    fewer lines than the threshold, no image span and no aligned pair of
    lines in two rows is not discrete, however far apart its lines are. *)
Theorem X22_fewer_lines_than_threshold (self : TextBlock) (distance : Q)
    (threshold : Z) :
  (1 <= length (lines self))%nat ->
  (Z.of_nat (length (lines self)) < threshold)%Z ->
  is_vertical_text self = false ->
  image_spans (lines self) = [] ->
  existsb aligned_other_row (consecutive_pairs (lines self)) = false ->
  contains_discrete_lines self distance threshold = Ok false.
Proof.
  intros Hlines Hfew Hvert Himg Hother.
  rewrite contains_discrete_lines_spec, Hvert, Himg, Hother.
  rewrite bool_decide_eq_true_2 by reflexivity. cbn [negb orb].
  destruct (length (lines self) =? 1)%nat; [reflexivity|].
  pose proof (gap_count_bound distance (lines self)).
  f_equal. apply Z.leb_gt. lia.
Qed.

End DiscreteLinesBound.

(** Two fragments 30 apart, with the threshold at 3. *)
Lemma X22_fewer_lines_than_threshold_witness :
  contains_discrete_lines (E := Demo.env) Demo.two_fragments 25 3 = Ok false.
Proof.
  apply (X22_fewer_lines_than_threshold (E := Demo.env) Demo.two_fragments 25 3).
  - vm_compute. lia.
  - vm_compute. reflexivity.
  - reflexivity.
  - reflexivity.
  - vm_compute. reflexivity.
Defined.
